(** * A moving-average crossover trader: [round1/squidward.py]

    A shallow embedding of [Trader.run].  The Python values the function
    touches are modelled as they are at run time: dynamically typed JSON
    values, unbounded integers, IEEE-754 binary64 floats (through the
    Standard Library's [SpecFloat], precision 53, [emax] 1024), insertion
    ordered dictionaries, and exceptions as an error result. *)

From Stdlib Require Import ZArith List String Ascii Bool Lia.
From Stdlib Require Import Floats.SpecFloat.
From Stdlib Require Import DecimalString DecimalZ DecimalPos DecimalFacts.
Import ListNotations.

Open Scope Z_scope.

#[local] Set Warnings "-register-all".

(** ** Exceptions and the result of a computation that may raise *)

Inductive exn : Type :=
| TypeError
| KeyError
| AttributeError
| ValueError
| OverflowError
| ZeroDivisionError.

Inductive res (A : Type) : Type :=
| Ok (a : A)
| Raise (e : exn).

Arguments Ok {A} a.
Arguments Raise {A} e.

Definition bind {A B : Type} (c : res A) (k : A -> res B) : res B :=
  match c with
  | Ok a => k a
  | Raise e => Raise e
  end.

Notation "x <- c ;; k" := (bind c (fun x => k))
  (at level 61, c at next level, right associativity).
Notation "' p <- c ;; k" := (bind c (fun x => match x with p => k end))
  (at level 61, p pattern, c at next level, right associativity).

(** ** binary64 *)

Module F64.

Definition prec : Z := 53.
Definition emax : Z := 1024.

Definition add : spec_float -> spec_float -> spec_float := SFadd prec emax.
Definition div : spec_float -> spec_float -> spec_float := SFdiv prec emax.
Definition leb : spec_float -> spec_float -> bool := SFleb.
Definition ltb : spec_float -> spec_float -> bool := SFltb.

(** Integers of magnitude [2^1024 - 2^970] and above round (to nearest,
    ties to even) to [2^1024], which is not a double. *)
Definition overflow_threshold : Z := 2 ^ 1024 - 2 ^ 970.

(** The double nearest to an integer. *)
Definition of_Z (z : Z) : spec_float := binary_normalize prec emax z 0 false.

(** An integer as an exact, not yet rounded, operand of a division. *)
Definition exact (z : Z) : spec_float :=
  match z with
  | Z0 => S754_zero false
  | Zpos p => S754_finite false p 0
  | Zneg p => S754_finite true p 0
  end.

Definition is_zero (f : spec_float) : bool :=
  match f with
  | S754_zero _ => true
  | _ => false
  end.

(** The literal [2.0]. *)
Definition two : spec_float := S754_finite false 4503599627370496 (-51).

(** [f] is zero or finite, and its value [(-1)^s * m * 2^e] is exactly
    the rational [num / den]. *)
Definition value_is (f : spec_float) (num den : Z) : Prop :=
  match f with
  | S754_zero _ => num = 0
  | S754_finite s m e =>
      let sm := if s then Zneg m else Zpos m in
      if 0 <=? e then sm * 2 ^ e * den = num else sm * den = num * 2 ^ (- e)
  | _ => False
  end.

End F64.

(** ** Python values

    What [json.loads] can return, which is also all that [price_history]
    can hold: the mid-prices the function appends are [int] or [float]. *)

Inductive pyval : Type :=
| PNone
| PBool (b : bool)
| PInt (z : Z)
| PFloat (f : spec_float)
| PStr (s : string)
| PList (l : list pyval)
| PDict (d : list (string * pyval)).

(** ** Dictionaries keyed by strings, in insertion order *)

Section Dict.
Context {V : Type}.

Fixpoint dict_get (k : string) (d : list (string * V)) : option V :=
  match d with
  | [] => None
  | (k', v) :: d' => if String.eqb k k' then Some v else dict_get k d'
  end.

(** [d[k] = v]: an existing key keeps its position, a new one goes last. *)
Fixpoint dict_set (k : string) (v : V) (d : list (string * V))
  : list (string * V) :=
  match d with
  | [] => [(k, v)]
  | (k', v') :: d' =>
      if String.eqb k k' then (k', v) :: d' else (k', v') :: dict_set k v d'
  end.

Definition dict_mem (k : string) (d : list (string * V)) : bool :=
  match dict_get k d with
  | Some _ => true
  | None => false
  end.

Definition dict_keys (d : list (string * V)) : list string := map fst d.

End Dict.

(** ** Numbers: [int] (with [bool] as its subclass) and [float] *)

Inductive num : Type :=
| NInt (z : Z)
| NFloat (f : spec_float).

Definition as_num (v : pyval) : res num :=
  match v with
  | PBool b => Ok (NInt (Z.b2z b))
  | PInt z => Ok (NInt z)
  | PFloat f => Ok (NFloat f)
  | _ => Raise TypeError
  end.

(** [float(z)]: "int too large to convert to float". *)
Definition float_of_int (z : Z) : res spec_float :=
  if Z.abs z <? F64.overflow_threshold then Ok (F64.of_Z z)
  else Raise OverflowError.

Definition to_float (n : num) : res spec_float :=
  match n with
  | NInt z => float_of_int z
  | NFloat f => Ok f
  end.

(** [a / b] on two integers: the correctly rounded quotient, "integer
    division result too large for a float" when it is out of range. *)
Definition int_truediv (a b : Z) : res spec_float :=
  if b =? 0 then Raise ZeroDivisionError
  else if Z.abs a <? Z.abs b * F64.overflow_threshold
       then Ok (F64.div (F64.exact a) (F64.exact b))
       else Raise OverflowError.

(** [a + b] *)
Definition py_add (a b : pyval) : res pyval :=
  x <- as_num a ;;
  y <- as_num b ;;
  match x, y with
  | NInt m, NInt n => Ok (PInt (m + n))
  | _, _ =>
      fx <- to_float x ;;
      fy <- to_float y ;;
      Ok (PFloat (F64.add fx fy))
  end.

(** [a / b]: true division, always a float. *)
Definition py_truediv (a b : pyval) : res spec_float :=
  x <- as_num a ;;
  y <- as_num b ;;
  match x, y with
  | NInt m, NInt n => int_truediv m n
  | _, _ =>
      fx <- to_float x ;;
      fy <- to_float y ;;
      if F64.is_zero fy then Raise ZeroDivisionError
      else Ok (F64.div fx fy)
  end.

(** [sum(l)]: left to right, from the integer [0], each addition rounded
    on its own, as CPython does up to version 3.11. *)
Fixpoint py_sum_from (acc : pyval) (l : list pyval) : res pyval :=
  match l with
  | [] => Ok acc
  | x :: l' => acc' <- py_add acc x ;; py_sum_from acc' l'
  end.

Definition py_sum (l : list pyval) : res pyval := py_sum_from (PInt 0) l.

(** [max(keys)] and [min(keys)]: [ValueError] on an empty sequence. *)
Definition py_max (l : list Z) : res Z :=
  match l with
  | [] => Raise ValueError
  | x :: l' => Ok (fold_left Z.max l' x)
  end.

Definition py_min (l : list Z) : res Z :=
  match l with
  | [] => Raise ValueError
  | x :: l' => Ok (fold_left Z.min l' x)
  end.

(** ** Lists: slices with step 1 *)

(** A slice bound [i] on a sequence of length [n]: a negative bound counts
    from the end, and the result is clipped to [0 .. n]. *)
Definition slice_bound (n i : Z) : Z :=
  Z.max 0 (Z.min n (if i <? 0 then i + n else i)).

(** [l[start:stop]] *)
Definition py_slice {A : Type} (l : list A) (start stop : option Z) : list A :=
  let n := Z.of_nat (List.length l) in
  let lo := match start with Some i => slice_bound n i | None => 0 end in
  let hi := match stop with Some i => slice_bound n i | None => n end in
  firstn (Z.to_nat (hi - lo)) (skipn (Z.to_nat lo) l).

(** ** Containers under a string key *)

(** [k in c] *)
Definition py_contains (c : pyval) (k : string) : res bool :=
  match c with
  | PDict d => Ok (dict_mem k d)
  | PList l =>
      Ok (existsb (fun v => match v with
                            | PStr s => String.eqb s k
                            | _ => false
                            end) l)
  | PStr s => Ok (match index 0 k s with Some _ => true | None => false end)
  | _ => Raise TypeError
  end.

(** [c[k]] *)
Definition py_getitem (c : pyval) (k : string) : res pyval :=
  match c with
  | PDict d =>
      match dict_get k d with
      | Some v => Ok v
      | None => Raise KeyError
      end
  | _ => Raise TypeError
  end.

(** [c[k] = v], returning the container after the assignment. *)
Definition py_setitem (c : pyval) (k : string) (v : pyval) : res pyval :=
  match c with
  | PDict d => Ok (PDict (dict_set k v d))
  | _ => Raise TypeError
  end.

(** [o.append(x)], returning the elements of the list after the call. *)
Definition py_append (o : pyval) (x : pyval) : res (list pyval) :=
  match o with
  | PList l => Ok (l ++ [x])
  | _ => Raise AttributeError
  end.

(** ** The data model of the harness

    [squidward.py] imports [OrderDepth], [TradingState] and [Order] from
    the harness's [datamodel], which is not part of the source. *)

(** Modelled from the spec: the order book of one product ([OrderDepth]),
    [buy_orders] and [sell_orders], each a mapping from price to quantity
    in the order the harness filled it.  Prices and quantities are Python
    integers. *)
Record OrderDepth : Type := {
  buy_orders : list (Z * Z);
  sell_orders : list (Z * Z)
}.

(** Modelled from the spec: an order ([Order]), the tuple of a product
    identifier, a price and a signed quantity, positive for a buy. *)
Record Order : Type := {
  symbol : string;
  price : Z;
  quantity : Z
}.

(** Modelled from the spec: the snapshot ([TradingState]), of which [run]
    reads the persisted state, possibly absent or empty, and the mapping
    from product identifier to order book.  The mapping is a list of
    pairs in iteration order; a dictionary has distinct keys, which the
    statements that need it ask with [NoDup]. *)
Record TradingState : Type := {
  traderData : option string;
  order_depths : list (string * OrderDepth)
}.

(** Truth value of a dictionary. *)
Definition nonempty {A : Type} (d : list A) : bool :=
  match d with
  | [] => false
  | _ :: _ => true
  end.

Definition keys (d : list (Z * Z)) : list Z := map fst d.

(** ** [Trader.run] *)

Definition short_window : Z := 3.
Definition long_window : Z := 6.
Definition order_quantity : Z := 10.

(** Lines 31-41: the representative price of a book, [None] for the
    [continue] of an empty book. *)
Definition mid_price (od : OrderDepth) : res (option pyval) :=
  if nonempty (buy_orders od) && nonempty (sell_orders od) then
    best_bid <- py_max (keys (buy_orders od)) ;;
    best_ask <- py_min (keys (sell_orders od)) ;;
    s <- py_add (PInt best_bid) (PInt best_ask) ;;
    m <- py_truediv s (PFloat F64.two) ;;
    Ok (Some (PFloat m))
  else if nonempty (buy_orders od) then
    m <- py_max (keys (buy_orders od)) ;;
    Ok (Some (PInt m))
  else if nonempty (sell_orders od) then
    m <- py_min (keys (sell_orders od)) ;;
    Ok (Some (PInt m))
  else Ok None.

(** Lines 45-47: the history after the append, and the list of the product
    in it.  The list object is changed in place, which is written here as
    storing the longer list under the same key. *)
Definition update_history (price_history : pyval) (product : string)
  (mid : pyval) : res (pyval * list pyval) :=
  absent <- (b <- py_contains price_history product ;; Ok (negb b)) ;;
  ph <- (if absent then py_setitem price_history product (PList [])
         else Ok price_history) ;;
  o <- py_getitem ph product ;;
  h <- py_append o mid ;;
  ph' <- py_setitem ph product (PList h) ;;
  Ok (ph', h).

(** [sum(h[start:stop]) / window] *)
Definition sma (h : list pyval) (start stop : option Z) (window : Z)
  : res spec_float :=
  s <- py_sum (py_slice h start stop) ;;
  py_truediv s (PInt window).

(** The test of line 64. *)
Definition crossover (sma_short_prev sma_long_prev sma_short sma_long
  : spec_float) : bool :=
  F64.leb sma_short_prev sma_long_prev && F64.ltb sma_long sma_short.

(** The longest decimal text of an [int] that [str] and the format of an
    f-string produce (CPython 3.11, [sys.int_info.default_max_str_digits]):
    4300 digits, the sign apart. *)
Definition str_digits_bound : Z := 10 ^ 4300.

(** The [print] of line 71.  The line goes to the standard output, which
    is not part of the state; to write it the values are formatted:
    [order_quantity] is 10, [product] is a string and the four averages
    are floats, which always have a text, and [best_ask] is an [int],
    whose conversion raises [ValueError] beyond 4300 digits. *)
Definition py_print (best_ask : Z) : res unit :=
  if Z.abs best_ask <? str_digits_bound then Ok tt else Raise ValueError.

(** Lines 54-71: the orders of a product whose history is [h]. *)
Definition signal_orders (product : string) (od : OrderDepth)
  (h : list pyval) : res (list Order) :=
  if Z.of_nat (List.length h) >=? long_window + 1 then
    sma_short <- sma h (Some (- short_window)) None short_window ;;
    sma_long <- sma h (Some (- long_window)) None long_window ;;
    sma_short_prev <-
      sma h (Some (- short_window - 1)) (Some (-1)) short_window ;;
    sma_long_prev <-
      sma h (Some (- long_window - 1)) (Some (-1)) long_window ;;
    if crossover sma_short_prev sma_long_prev sma_short sma_long then
      if nonempty (sell_orders od) then
        best_ask <- py_min (keys (sell_orders od)) ;;
        let orders := [ {| symbol := product; price := best_ask;
                           quantity := order_quantity |} ] in
        'tt <- py_print best_ask ;;
        Ok orders
      else Ok []
    else Ok []
  else Ok [].

(** One iteration of the loop of line 25, on a key of [order_depths] and
    the book under that key. *)
Definition process_product (product : string) (od : OrderDepth)
  (result : list (string * list Order)) (price_history : pyval)
  : res (list (string * list Order) * pyval) :=
  m <- mid_price od ;;
  match m with
  | None => Ok (result, price_history)
  | Some mid =>
      '(ph, h) <- update_history price_history product mid ;;
      orders <- signal_orders product od h ;;
      Ok (dict_set product orders result, ph)
  end.

Fixpoint run_loop (ods : list (string * OrderDepth))
  (result : list (string * list Order)) (price_history : pyval)
  : res (list (string * list Order) * pyval) :=
  match ods with
  | [] => Ok (result, price_history)
  | (product, od) :: ods' =>
      '(result', ph') <- process_product product od result price_history ;;
      run_loop ods' result' ph'
  end.

Section Engine.

(** [json.loads] and [json.dumps] belong to the Python library.
    [json_loads s = None] stands for any exception it raises.
    [json.dumps] is taken to return: it does on every value that
    [json.loads] returned, and on such a value with integers of at most
    4300 digits added, which is the case of the mid-prices within
    [int_bound] of the statements that a run returns. *)
Variable json_loads : string -> option pyval.
Variable json_dumps : pyval -> string.

(** Lines 19-22. *)
Definition load_history (data : option string) : pyval :=
  match data with
  | None => PDict []
  | Some EmptyString => PDict []
  | Some s =>
      match json_loads s with
      | Some v => v
      | None => PDict []
      end
  end.

Definition run (state : TradingState)
  : res (list (string * list Order) * Z * string) :=
  let result := [] in
  let price_history := load_history (traderData state) in
  '(result, price_history) <-
    run_loop (order_depths state) result price_history ;;
  let traderData := json_dumps price_history in
  let conversions := 1 in
  Ok (result, conversions, traderData).

End Engine.

(** ** JSON text

    [run] serializes with [json.dumps] and parses with [json.loads], both
    of the Python library and not part of the source.  This module models
    them with their default settings ([ensure_ascii], separators [", "]
    and [": "], non-finite floats written [NaN], [Infinity] and
    [-Infinity], strict strings) on characters with code points 0 to 255.
    The text of a finite float ([float.__repr__]) and its reading
    ([float]) are parameters.  Not modelled: escapes [\uXXXX] above
    [00ff], which [loads] here rejects, and the interpreter's limits on
    recursion depth and on the digits of an integer. *)

Module Json.

Open Scope string_scope.

Definition dquote : ascii := "034"%char.
Definition backslash : ascii := "092"%char.

Definition is_digit (c : ascii) : bool :=
  (48 <=? nat_of_ascii c)%nat && (nat_of_ascii c <=? 57)%nat.

Definition is_ws (c : ascii) : bool :=
  Ascii.eqb c " " || Ascii.eqb c "009" || Ascii.eqb c "010"
  || Ascii.eqb c "013".

(** *** Writing *)

Definition hex_char (n : nat) : ascii :=
  match n with
  | 0 => "0" | 1 => "1" | 2 => "2" | 3 => "3" | 4 => "4" | 5 => "5"
  | 6 => "6" | 7 => "7" | 8 => "8" | 9 => "9" | 10 => "a" | 11 => "b"
  | 12 => "c" | 13 => "d" | 14 => "e" | _ => "f"
  end%nat%char.

(** One character of a string: the short escapes, the character itself
    when it is printable ASCII, [\u00xx] otherwise. *)
Definition escape_char (c : ascii) : string :=
  if Ascii.eqb c dquote then String backslash (String dquote EmptyString)
  else if Ascii.eqb c backslash
       then String backslash (String backslash EmptyString)
  else if Ascii.eqb c "010" then String backslash "n"
  else if Ascii.eqb c "013" then String backslash "r"
  else if Ascii.eqb c "009" then String backslash "t"
  else if Ascii.eqb c "008" then String backslash "b"
  else if Ascii.eqb c "012" then String backslash "f"
  else if (32 <=? nat_of_ascii c)%nat && (nat_of_ascii c <=? 126)%nat
       then String c EmptyString
  else String backslash
         (String "u" (String "0" (String "0"
            (String (hex_char (nat_of_ascii c / 16))
               (String (hex_char (nat_of_ascii c mod 16)) EmptyString))))).

Fixpoint escape (s : string) : string :=
  match s with
  | EmptyString => EmptyString
  | String c s' => escape_char c ++ escape s'
  end.

Definition quote (s : string) : string :=
  String dquote (escape s ++ String dquote EmptyString).

(** [sep.join(l)] *)
Fixpoint join (sep : string) (l : list string) : string :=
  match l with
  | [] => EmptyString
  | [x] => x
  | x :: l' => x ++ sep ++ join sep l'
  end.

Definition int_repr (z : Z) : string := NilZero.string_of_int (Z.to_int z).

(** *** Reading a number token *)

Fixpoint span_digits (s : string) : string * string :=
  match s with
  | EmptyString => (EmptyString, EmptyString)
  | String c s' =>
      if is_digit c
      then let (d, r) := span_digits s' in (String c d, r)
      else (EmptyString, s)
  end.

Definition is_empty (s : string) : bool :=
  match s with
  | EmptyString => true
  | String _ _ => false
  end.

(** [-?] *)
Definition scan_sign (s : string) : string * string :=
  match s with
  | String c s' =>
      if Ascii.eqb c "-" then ("-", s') else (EmptyString, s)
  | EmptyString => (EmptyString, s)
  end.

(** [0|[1-9][0-9]*] *)
Definition scan_int_part (s : string) : option (string * string) :=
  match s with
  | EmptyString => None
  | String c s' =>
      if Ascii.eqb c "0" then Some ("0", s')
      else if is_digit c
           then let (d, r) := span_digits s' in Some (String c d, r)
           else None
  end.

(** [(\.[0-9]+)?] *)
Definition scan_frac (s : string) : string * string :=
  match s with
  | String c s' =>
      if Ascii.eqb c "." then
        let (d, r) := span_digits s' in
        if is_empty d then (EmptyString, s) else (String c d, r)
      else (EmptyString, s)
  | EmptyString => (EmptyString, s)
  end.

(** [([eE][-+]?[0-9]+)?] *)
Definition scan_exp (s : string) : string * string :=
  match s with
  | String c s' =>
      if Ascii.eqb c "e" || Ascii.eqb c "E" then
        let (sg, s'') :=
          match s' with
          | String c' t =>
              if Ascii.eqb c' "+" || Ascii.eqb c' "-"
              then (String c' EmptyString, t) else (EmptyString, s')
          | EmptyString => (EmptyString, s')
          end in
        let (d, r) := span_digits s'' in
        if is_empty d then (EmptyString, s) else (String c (sg ++ d), r)
      else (EmptyString, s)
  | EmptyString => (EmptyString, s)
  end.

(** [p] removed from the front of [s]. *)
Fixpoint strip_prefix (p s : string) : option string :=
  match p with
  | EmptyString => Some s
  | String a p' =>
      match s with
      | String b s' => if Ascii.eqb a b then strip_prefix p' s' else None
      | EmptyString => None
      end
  end.

(** *** Reading a string, after its opening quote *)

Definition hex_val (c : ascii) : option nat :=
  let n := nat_of_ascii c in
  if is_digit c then Some (n - 48)%nat
  else if (97 <=? n)%nat && (n <=? 102)%nat then Some (n - 87)%nat
  else if (65 <=? n)%nat && (n <=? 70)%nat then Some (n - 55)%nat
  else None.

Definition simple_escape (c : ascii) : option ascii :=
  if Ascii.eqb c dquote then Some dquote
  else if Ascii.eqb c backslash then Some backslash
  else if Ascii.eqb c "/" then Some "/"%char
  else if Ascii.eqb c "b" then Some "008"%char
  else if Ascii.eqb c "f" then Some "012"%char
  else if Ascii.eqb c "n" then Some "010"%char
  else if Ascii.eqb c "r" then Some "013"%char
  else if Ascii.eqb c "t" then Some "009"%char
  else None.

(** [\uXXXX] is read when its code point is below 256. *)
Definition unicode_escape (h1 h2 h3 h4 : ascii) : option ascii :=
  match hex_val h1, hex_val h2, hex_val h3, hex_val h4 with
  | Some 0%nat, Some 0%nat, Some a, Some b =>
      Some (ascii_of_nat (16 * a + b))
  | _, _, _, _ => None
  end.

Fixpoint scan_string (s : string) : option (string * string) :=
  match s with
  | EmptyString => None
  | String c s' =>
      if Ascii.eqb c dquote then Some (EmptyString, s')
      else if Ascii.eqb c backslash then
        match s' with
        | EmptyString => None
        | String e s'' =>
            match simple_escape e with
            | Some a =>
                match scan_string s'' with
                | Some (t, r) => Some (String a t, r)
                | None => None
                end
            | None =>
                if Ascii.eqb e "u" then
                  match s'' with
                  | String h1 (String h2 (String h3 (String h4 s3))) =>
                      match unicode_escape h1 h2 h3 h4 with
                      | Some a =>
                          match scan_string s3 with
                          | Some (t, r) => Some (String a t, r)
                          | None => None
                          end
                      | None => None
                      end
                  | _ => None
                  end
                else None
            end
        end
      else if (nat_of_ascii c <? 32)%nat then None
      else
        match scan_string s' with
        | Some (t, r) => Some (String c t, r)
        | None => None
        end
  end.

Fixpoint skip_ws (s : string) : string :=
  match s with
  | EmptyString => EmptyString
  | String c s' => if is_ws c then skip_ws s' else s
  end.

(** What may follow a number token: nothing, or a character that could
    not continue it. *)
Definition delimited (rest : string) : bool :=
  match rest with
  | EmptyString => true
  | String c _ =>
      negb (is_digit c || Ascii.eqb c "." || Ascii.eqb c "e"
            || Ascii.eqb c "E" || Ascii.eqb c "+" || Ascii.eqb c "-")
  end.

(** The first character of the text of a number. *)
Definition number_start (c : ascii) : Prop :=
  is_digit c = true \/ c = "-"%char \/ c = "N"%char \/ c = "I"%char.

(** Fuel that reads the members [d] of an object of sequences. *)
Fixpoint members_fuel (d : list (string * pyval)) : nat :=
  match d with
  | [] => 0
  | (_, v) :: d' =>
      S (Nat.max (match v with
                  | PList l => List.length l + 2
                  | _ => 0
                  end) (members_fuel d'))
  end.

(** [dict(pairs)] *)
Definition dict_of_pairs (m : list (string * pyval))
  : list (string * pyval) :=
  fold_left (fun d kv => dict_set (fst kv) (snd kv) d) m [].

Section Codec.

(** [float.__repr__] on a finite float, and [float] on the text of a
    number token with a fraction or an exponent. *)
Variable float_repr : spec_float -> string.
Variable read_float : string -> spec_float.

Definition float_text (f : spec_float) : string :=
  match f with
  | S754_nan => "NaN"
  | S754_infinity false => "Infinity"
  | S754_infinity true => "-Infinity"
  | _ => float_repr f
  end.

(** Modelled from the spec: the persisted-state serialization
    ([json.dumps]), an object whose keys are product identifiers and
    whose values are arrays of numbers, and every other JSON value as
    Python writes it. *)
Fixpoint dumps (v : pyval) : string :=
  match v with
  | PNone => "null"
  | PBool true => "true"
  | PBool false => "false"
  | PInt z => int_repr z
  | PFloat f => float_text f
  | PStr s => quote s
  | PList l => "[" ++ join ", " (map dumps l) ++ "]"
  | PDict d =>
      "{" ++ join ", "
               (map (fun kv => quote (fst kv) ++ ": " ++ dumps (snd kv)) d)
          ++ "}"
  end.

(** The number token at the front of [s]: an [int] when it has neither
    fraction nor exponent, a [float] otherwise. *)
Definition scan_number (s : string) : option (pyval * string) :=
  let (sg, s1) := scan_sign s in
  match scan_int_part s1 with
  | None => None
  | Some (i, s2) =>
      let (f, s3) := scan_frac s2 in
      let (e, s4) := scan_exp s3 in
      if is_empty f && is_empty e then
        match NilZero.int_of_string (sg ++ i) with
        | Some d => Some (PInt (Z.of_int d), s4)
        | None => None
        end
      else Some (PFloat (read_float (sg ++ i ++ f ++ e)), s4)
  end.

Definition scan_constant (s : string) : option (pyval * string) :=
  match strip_prefix "NaN" s with
  | Some r => Some (PFloat S754_nan, r)
  | None =>
      match strip_prefix "Infinity" s with
      | Some r => Some (PFloat (S754_infinity false), r)
      | None =>
          match strip_prefix "-Infinity" s with
          | Some r => Some (PFloat (S754_infinity true), r)
          | None => None
          end
      end
  end.

(** A value that is neither a string, an object nor an array. *)
Definition scan_atom (s : string) : option (pyval * string) :=
  match strip_prefix "null" s with
  | Some r => Some (PNone, r)
  | None =>
      match strip_prefix "true" s with
      | Some r => Some (PBool true, r)
      | None =>
          match strip_prefix "false" s with
          | Some r => Some (PBool false, r)
          | None =>
              match scan_number s with
              | Some x => Some x
              | None => scan_constant s
              end
          end
      end
  end.

(** The scanner, with [n] bounding the nesting and the number of
    elements still to read.  [scan_elems] starts at an element,
    [scan_members] after the opening quote of a key. *)
Fixpoint scan_value (n : nat) (s : string) : option (pyval * string) :=
  match n with
  | O => None
  | S n' =>
      match s with
      | EmptyString => None
      | String c r =>
          if Ascii.eqb c dquote then
            match scan_string r with
            | Some (t, r') => Some (PStr t, r')
            | None => None
            end
          else if Ascii.eqb c "{" then
            match skip_ws r with
            | EmptyString => None
            | String c' r' =>
                if Ascii.eqb c' "}" then Some (PDict [], r')
                else if Ascii.eqb c' dquote then
                  match scan_members n' r' with
                  | Some (m, r'') => Some (PDict (dict_of_pairs m), r'')
                  | None => None
                  end
                else None
            end
          else if Ascii.eqb c "[" then
            match skip_ws r with
            | EmptyString => None
            | String c' r' =>
                if Ascii.eqb c' "]" then Some (PList [], r')
                else
                  match scan_elems n' (String c' r') with
                  | Some (l, r'') => Some (PList l, r'')
                  | None => None
                  end
            end
          else scan_atom s
      end
  end
with scan_elems (n : nat) (s : string) : option (list pyval * string) :=
  match n with
  | O => None
  | S n' =>
      match scan_value n' s with
      | None => None
      | Some (v, r) =>
          match skip_ws r with
          | EmptyString => None
          | String c r' =>
              if Ascii.eqb c "]" then Some ([v], r')
              else if Ascii.eqb c "," then
                match scan_elems n' (skip_ws r') with
                | Some (l, r'') => Some (v :: l, r'')
                | None => None
                end
              else None
          end
      end
  end
with scan_members (n : nat) (s : string)
  : option (list (string * pyval) * string) :=
  match n with
  | O => None
  | S n' =>
      match scan_string s with
      | None => None
      | Some (k, r) =>
          match skip_ws r with
          | EmptyString => None
          | String c r1 =>
              if Ascii.eqb c ":" then
                match scan_value n' (skip_ws r1) with
                | None => None
                | Some (v, r2) =>
                    match skip_ws r2 with
                    | EmptyString => None
                    | String c' r3 =>
                        if Ascii.eqb c' "}" then Some ([(k, v)], r3)
                        else if Ascii.eqb c' "," then
                          match skip_ws r3 with
                          | EmptyString => None
                          | String q r4 =>
                              if Ascii.eqb q dquote then
                                match scan_members n' r4 with
                                | Some (m, r5) => Some ((k, v) :: m, r5)
                                | None => None
                                end
                              else None
                          end
                        else None
                    end
                end
              else None
          end
      end
  end.

(** Modelled from the spec: the parser of the persisted state
    ([json.loads]): one value, white space around it, nothing else;
    [None] stands for the exception of a text that is not JSON. *)
Definition loads (s : string) : option pyval :=
  match scan_value (S (String.length s)) (skip_ws s) with
  | Some (v, r) => if is_empty (skip_ws r) then Some v else None
  | None => None
  end.

(** The text of a float is a number token that reads back as the
    float: what CPython guarantees of [repr] on every finite float. *)
Definition reads_back (f : spec_float) : Prop :=
  scan_number (float_repr f) = Some (PFloat f, EmptyString).

(** An [int], or a [float] whose text reads back when it is finite. *)
Definition json_number (v : pyval) : Prop :=
  match v with
  | PInt _ => True
  | PFloat S754_nan => True
  | PFloat (S754_infinity _) => True
  | PFloat f => reads_back f
  | _ => False
  end.

(** Every member is a sequence of numbers. *)
Definition sequences (d : list (string * pyval)) : Prop :=
  Forall (fun kv => match snd kv with
                    | PList l => Forall json_number l
                    | _ => False
                    end) d.

(** A history mapping: distinct products, each with a sequence of
    numbers. *)
Definition json_history (h : pyval) : Prop :=
  match h with
  | PDict d => NoDup (map fst d) /\ sequences d
  | _ => False
  end.

(** One member of an object, as [dumps] writes it. *)
Definition member_text (kv : string * pyval) : string :=
  quote (fst kv) ++ ": " ++ dumps (snd kv).

End Codec.

End Json.

(** ** One text for finite floats

    [exact_repr] writes the exact decimal value of a double and
    [round_read] rounds a decimal numeral to the nearest double, ties to
    even.  CPython's [repr] writes the shortest digits that read back as
    the same double instead; the two agree whenever those shortest digits
    are exact and printed without an exponent, as for the halves of
    integers below [10^16] that [mid_price] produces.  The statements
    about [run] and about the round trip hold for every choice of the two
    functions; these two serve on the sample ticks. *)

Module FloatText.

Open Scope string_scope.

Definition digits_of (n : Z) : string :=
  NilZero.string_of_uint (N.to_uint (Z.to_N n)).

(** The last [k] decimal digits of [n], with leading zeros. *)
Definition padded (k : Z) (n : Z) : string :=
  match digits_of (10 ^ k + n mod 10 ^ k) with
  | String _ s => s
  | EmptyString => EmptyString
  end.

Fixpoint drop_zeros (l : list ascii) : list ascii :=
  match l with
  | c :: l' => if Ascii.eqb c "0" then drop_zeros l' else l
  | [] => []
  end.

Definition strip_trailing_zeros (s : string) : string :=
  match rev (drop_zeros (rev (list_ascii_of_string s))) with
  | [] => "0"
  | l => string_of_list_ascii l
  end.

(** Modelled from the spec: a text of a float ([float.__repr__]) that is
    a JSON number and reads back, here the exact decimal expansion. *)
Definition exact_repr (f : spec_float) : string :=
  match f with
  | S754_zero false => "0.0"
  | S754_zero true => "-0.0"
  | S754_infinity false => "inf"
  | S754_infinity true => "-inf"
  | S754_nan => "nan"
  | S754_finite s m e =>
      (if s then "-" else EmptyString) ++
      (if (0 <=? e)%Z then digits_of (Zpos m * 2 ^ e) ++ ".0"
       else
         let k := - e in
         let n := Zpos m * 5 ^ k in
         digits_of (n / 10 ^ k) ++ "." ++ strip_trailing_zeros (padded k n))
  end.

Definition Z_of_digits (s : string) : Z :=
  match NilEmpty.uint_of_string s with
  | Some d => Z.of_uint d
  | None => 0
  end.

(** [(-1)^s * n * 10^scale], rounded. *)
Definition round_decimal (s : bool) (n : Z) (scale : Z) : spec_float :=
  match n with
  | Zpos p =>
      if (0 <=? scale)%Z
      then binary_normalize F64.prec F64.emax
             ((if s then Zneg p else Zpos p) * 10 ^ scale) 0 false
      else F64.div (S754_finite s p 0) (F64.exact (10 ^ (- scale)))
  | _ => S754_zero s
  end.

(** Modelled from the spec: the float of a number token ([float]), the
    nearest double. *)
Definition round_read (t : string) : spec_float :=
  let (sg, t1) := Json.scan_sign t in
  let (i, t2) := Json.span_digits t1 in
  let (f, t3) :=
    match t2 with
    | String "." t' => Json.span_digits t'
    | _ => (EmptyString, t2)
    end in
  let ex :=
    match t3 with
    | String _ (String "-" d) => - Z_of_digits d
    | String _ (String "+" d) => Z_of_digits d
    | String _ d => Z_of_digits d
    | EmptyString => 0
    end in
  round_decimal (negb (Json.is_empty sg)) (Z_of_digits (i ++ f))
    (ex - Z.of_nat (String.length f)).

End FloatText.

(** Modelled from the spec: [json.dumps] and [json.loads] with that text
    for floats. *)
Definition ref_dumps : pyval -> string :=
  Json.dumps FloatText.exact_repr.
Definition ref_loads : string -> option pyval :=
  Json.loads FloatText.round_read.

(** ** Vocabulary of the statements *)

(** What a history mapping holds for a product. *)
Definition entry (ph : pyval) (product : string) : option pyval :=
  match ph with
  | PDict d => dict_get product d
  | _ => None
  end.

(** The recorded mid-prices of a product: none when the mapping has no
    entry for it, undefined when the mapping is not a dictionary or the
    entry is not a list. *)
Definition history_of (ph : pyval) (product : string)
  : option (list pyval) :=
  match ph with
  | PDict d =>
      match dict_get product d with
      | None => Some []
      | Some (PList l) => Some l
      | Some _ => None
      end
  | _ => None
  end.

(** The last [n] elements of a sequence. *)
Definition lastn {A : Type} (n : nat) (l : list A) : list A :=
  skipn (List.length l - n) l.

(** The mean of a window, as the function computes it: the sum from the
    left, divided by the number of values. *)
Definition mean (w : list pyval) : res spec_float :=
  s <- py_sum w ;;
  py_truediv s (PInt (Z.of_nat (List.length w))).

Definition is_max_key (k : Z) (d : list (Z * Z)) : Prop :=
  In k (keys d) /\ forall k', In k' (keys d) -> k' <= k.

Definition is_min_key (k : Z) (d : list (Z * Z)) : Prop :=
  In k (keys d) /\ forall k', In k' (keys d) -> k <= k'.

(** The buy order of a crossover. *)
Definition buy_order (product : string) (best_ask : Z) : Order :=
  {| symbol := product; price := best_ask; quantity := 10 |}.

(** Magnitudes that stay far from the range of a double when six of them
    are added. *)
Definition int_bound : Z := 2 ^ 1020.

Definition small_int (z : Z) : Prop := Z.abs z <= int_bound.

(** An [int] within the bound, or a [float]. *)
Definition number (v : pyval) : Prop :=
  match v with
  | PInt z => small_int z
  | PFloat _ => True
  | _ => False
  end.

(** A running sum with [room] values still to add: a float, or an integer
    that stays within six times the bound. *)
Definition partial_sum (room : Z) (v : pyval) : Prop :=
  match v with
  | PInt z => Z.abs z + room * int_bound <= 6 * int_bound
  | PFloat _ => True
  | _ => False
  end.

(** A mapping from products to sequences of numbers. *)
Definition history_mapping (ph : pyval) : Prop :=
  match ph with
  | PDict d =>
      Forall (fun kv => match snd kv with
                        | PList l => Forall number l
                        | _ => False
                        end) d
  | _ => False
  end.

(** Every price of every book is within the bound. *)
Definition prices_in_range (ods : list (string * OrderDepth)) : Prop :=
  Forall (fun pod =>
            Forall small_int (keys (buy_orders (snd pod))) /\
            Forall small_int (keys (sell_orders (snd pod)))) ods.

(** The same snapshot with another persisted state. *)
Definition with_state (state : TradingState) (data : option string)
  : TradingState :=
  {| traderData := data; order_depths := order_depths state |}.

(** The number [q] as an [int] or as a [float]. *)
Definition is_value (q : Z) (v : pyval) : Prop :=
  v = PInt q \/ v = PFloat (F64.of_Z q).

(** ** Sample ticks *)

Module Sample.

Open Scope string_scope.

(** Best bid 15, best ask 17: mid-price 16.0. *)
Definition kelp_book : OrderDepth :=
  {| buy_orders := [(14, 3); (15, 5)]; sell_orders := [(18, 1); (17, 4)] |}.

(** Bids only: mid-price 16. *)
Definition bids_only : OrderDepth :=
  {| buy_orders := [(16, 5)]; sell_orders := [] |}.

Definition empty_book : OrderDepth :=
  {| buy_orders := []; sell_orders := [] |}.

(** Prices beyond the range of a double. *)
Definition huge_book : OrderDepth :=
  {| buy_orders := [(2 ^ 1024, 1)]; sell_orders := [(2 ^ 1024, 1)] |}.

Definition six_tens : list pyval :=
  [PInt 10; PInt 10; PInt 10; PInt 10; PInt 10; PInt 10].

Definition sixteen : spec_float := F64.of_Z 16.

Definition flat_history : pyval := PDict [("KELP", PList six_tens)].

(** The state of the literal scenario, and what [run] returns on it. *)
Definition crossover_state : TradingState :=
  {| traderData := Some (ref_dumps flat_history);
     order_depths := [("KELP", kelp_book)] |}.

Definition crossover_result : list (string * list Order) :=
  [("KELP", [buy_order "KELP" 17])].

Definition crossover_data : string :=
  ref_dumps (PDict [("KELP", PList (six_tens ++ [PFloat sixteen]))]).

(** The same history, a book without sell orders. *)
Definition no_asks_state : TradingState :=
  {| traderData := Some (ref_dumps flat_history);
     order_depths := [("KELP", bids_only)] |}.

Definition no_asks_data : string :=
  ref_dumps (PDict [("KELP", PList (six_tens ++ [PInt 16]))]).

(** A first tick. *)
Definition first_state : TradingState :=
  {| traderData := Some EmptyString;
     order_depths := [("KELP", kelp_book); ("RESIN", empty_book)] |}.

Definition first_data : string :=
  ref_dumps (PDict [("KELP", PList [PFloat sixteen])]).

(** A persisted state that is not JSON. *)
Definition malformed_state : TradingState :=
  {| traderData := Some "{";
     order_depths := [("KELP", kelp_book); ("RESIN", empty_book)] |}.

Definition malformed_huge_state : TradingState :=
  {| traderData := Some "{"; order_depths := [("KELP", huge_book)] |}.

(** A persisted state that is JSON, but an array. *)
Definition array_state : TradingState :=
  {| traderData := Some "[]"; order_depths := [("KELP", kelp_book)] |}.

(** Three recorded products: the snapshot has prices for the first, an
    empty book for the second and nothing for the third. *)
Definition three_histories : pyval :=
  PDict [("KELP", PList six_tens);
         ("RESIN", PList [PInt 3; PInt 4]);
         ("SQUID", PList [PInt 7])].

Definition three_text : string := ref_dumps three_histories.

Definition three_state : TradingState :=
  {| traderData := Some three_text;
     order_depths := [("KELP", kelp_book); ("RESIN", empty_book)] |}.

Definition three_data : string :=
  ref_dumps
    (PDict [("KELP", PList (six_tens ++ [PFloat sixteen]));
            ("RESIN", PList [PInt 3; PInt 4]);
            ("SQUID", PList [PInt 7])]).

End Sample.

(** ** Vocabulary of the further properties *)

(** The book has a price on some side: a mid-price is derived. *)
Definition has_mid (od : OrderDepth) : bool :=
  nonempty (buy_orders od) || nonempty (sell_orders od).

(** The products of a snapshot that reach line 74, in iteration order. *)
Definition processed (ods : list (string * OrderDepth)) : list string :=
  map fst (filter (fun pod => has_mid (snd pod)) ods).

(** Every book of the snapshot is empty on both sides. *)
Definition idle (ods : list (string * OrderDepth)) : Prop :=
  forall product od,
    In (product, od) ods -> buy_orders od = [] /\ sell_orders od = [].

(** Two books with the same prices on each side, whatever the quantities. *)
Definition same_prices (a b : OrderDepth) : Prop :=
  keys (buy_orders a) = keys (buy_orders b) /\
  keys (sell_orders a) = keys (sell_orders b).

(** Two snapshots with the same products in the same order, and books
    with the same prices. *)
Definition same_books (ods1 ods2 : list (string * OrderDepth)) : Prop :=
  Forall2 (fun x y => fst x = fst y /\ same_prices (snd x) (snd y))
    ods1 ods2.

Definition is_dict (v : pyval) : bool :=
  match v with
  | PDict _ => true
  | _ => false
  end.

(** The orders a product can get: none, or one buy of 10 at the smallest
    sell price of its book. *)
Definition no_order_or_one_buy (product : string) (od : OrderDepth)
  (orders : list Order) : Prop :=
  orders = [] \/
  exists best_ask,
    is_min_key best_ask (sell_orders od) /\
    orders = [buy_order product best_ask].

(** What a first tick leaves of a snapshot: for every book with a price,
    a history of that one mid-price. *)
Definition first_entries (ods : list (string * OrderDepth))
  : list (string * pyval) :=
  flat_map (fun pod => match mid_price (snd pod) with
                       | Ok (Some mid) => [(fst pod, PList [mid])]
                       | _ => []
                       end) ods.

(** A persisted state that is absent, empty, or that [loads] rejects. *)
Definition no_state (loads : string -> option pyval)
  (data : option string) : Prop :=
  data = None \/ data = Some EmptyString \/
  exists s, data = Some s /\ loads s = None.

(** A value that [+] and [/] accept: a [bool], an [int] or a [float]. *)
Definition is_number (v : pyval) : bool :=
  match v with
  | PBool _ | PInt _ | PFloat _ => true
  | _ => false
  end.

(** Every product of the snapshot has fewer than six recorded
    mid-prices, of any kind. *)
Definition short_histories (ph : pyval) (ods : list (string * OrderDepth))
  : Prop :=
  forall product od,
    In (product, od) ods ->
    exists old,
      history_of ph product = Some old /\ (List.length old < 6)%nat.

(** A computation that raises nothing but the exceptions of [allowed]. *)
Definition only {A : Type} (allowed : list exn) (c : res A) : Prop :=
  forall e, c = Raise e -> In e allowed.

(** ** More sample ticks *)

Module Ticks.

Open Scope string_scope.

(** The prices of [Sample.kelp_book] with other quantities. *)
Definition thin_kelp_book : OrderDepth :=
  {| buy_orders := [(14, 1); (15, 1)]; sell_orders := [(18, 9); (17, 9)] |}.

Definition thin_state : TradingState :=
  {| traderData := Some (ref_dumps Sample.flat_history);
     order_depths := [("KELP", thin_kelp_book)] |}.


(** One more value in front of the six of the literal scenario. *)
Definition longer_state : TradingState :=
  {| traderData :=
       Some (ref_dumps (PDict [("KELP", PList (PInt 5 :: Sample.six_tens))]));
     order_depths := [("KELP", Sample.kelp_book)] |}.

Definition longer_result : list (string * list Order) :=
  [("KELP", [buy_order "KELP" 17])].

Definition longer_data : string :=
  ref_dumps
    (PDict [("KELP",
             PList (PInt 5 :: Sample.six_tens ++ [PFloat Sample.sixteen]))]).

(** The tick after the literal scenario, on the state it returned and the
    same book. *)
Definition next_state : TradingState :=
  {| traderData := Some Sample.crossover_data;
     order_depths := [("KELP", Sample.kelp_book)] |}.

Definition next_result : list (string * list Order) := [("KELP", [])].

Definition next_data : string :=
  ref_dumps
    (PDict [("KELP",
             PList (Sample.six_tens
                    ++ [PFloat Sample.sixteen; PFloat Sample.sixteen]))]).

(** The history of the literal scenario and a mid-price of 16.0 again,
    from a best ask of more than 4300 digits. *)
Definition unprintable_book : OrderDepth :=
  {| buy_orders := [(32 - 10 ^ 4300, 1)]; sell_orders := [(10 ^ 4300, 1)] |}.

Definition unprintable_state : TradingState :=
  {| traderData := Some (ref_dumps Sample.flat_history);
     order_depths := [("KELP", unprintable_book)] |}.

(** A short history of values that are not numbers. *)
Definition text_history : pyval :=
  PDict [("KELP", PList [PStr "a"; PNone])].

Definition text_state : TradingState :=
  {| traderData := Some (ref_dumps text_history);
     order_depths := [("KELP", Sample.kelp_book);
                      ("RESIN", Sample.empty_book)] |}.

End Ticks.

(** * Properties *)

(** ** Dictionaries *)

Section DictFacts.
Context {V : Type}.
Implicit Types (d : list (string * V)) (k : string) (v : V).

Lemma dict_get_set_eq k v d : dict_get k (dict_set k v d) = Some v.
Proof.
  induction d as [|[k' v'] d IH]; simpl.
  - now rewrite String.eqb_refl.
  - destruct (String.eqb k k') eqn:E; simpl; rewrite E; auto.
Qed.

Lemma dict_get_set_neq k k' v d :
  k <> k' -> dict_get k (dict_set k' v d) = dict_get k d.
Proof.
  intros Hne. induction d as [|[k0 v0] d IH]; simpl.
  - destruct (String.eqb_spec k k'); congruence.
  - destruct (String.eqb_spec k' k0) as [->|Hk]; simpl.
    + destruct (String.eqb_spec k k0); congruence.
    + destruct (String.eqb_spec k k0); auto.
Qed.

Lemma dict_set_set k v v' d :
  dict_set k v (dict_set k v' d) = dict_set k v d.
Proof.
  induction d as [|[k0 v0] d IH]; simpl.
  - now rewrite String.eqb_refl.
  - destruct (String.eqb k k0) eqn:E; simpl; rewrite E; congruence.
Qed.

Lemma dict_get_In k v d : dict_get k d = Some v -> In (k, v) d.
Proof.
  induction d as [|[k0 v0] d IH]; simpl; [discriminate|].
  destruct (String.eqb_spec k k0) as [->|Hk].
  - intros [= ->]. now left.
  - intros H. right. auto.
Qed.

Lemma dict_get_None k d : dict_get k d = None -> ~ In k (map fst d).
Proof.
  induction d as [|[k0 v0] d IH]; simpl; [tauto|].
  destruct (String.eqb_spec k k0) as [->|Hk]; [discriminate|].
  intros H [E|HIn]; [congruence|]. now apply IH.
Qed.

Lemma In_dict_set k v d kv :
  In kv (dict_set k v d) -> kv = (k, v) \/ In kv d.
Proof.
  induction d as [|[k0 v0] d IH]; simpl.
  - intros [<-|[]]. now left.
  - destruct (String.eqb_spec k k0) as [->|Hk]; simpl.
    + intros [<-|H]; auto.
    + intros [<-|H]; auto. destruct (IH H); auto.
Qed.

End DictFacts.

(** ** One product *)

Lemma bind_Ok {A B : Type} (c : res A) (k : A -> res B) (b : B) :
  bind c k = Ok b -> exists a, c = Ok a /\ k a = Ok b.
Proof. destruct c as [a|e]; simpl; [eauto|discriminate]. Qed.

Lemma update_history_defined d product mid old :
  history_of (PDict d) product = Some old ->
  update_history (PDict d) product mid
  = Ok (PDict (dict_set product (PList (old ++ [mid])) d), old ++ [mid]).
Proof.
  unfold history_of, update_history, dict_mem. simpl.
  destruct (dict_get product d) as [v|] eqn:E; simpl.
  - unfold dict_mem. rewrite E. simpl. rewrite E.
    destruct v; try discriminate. intros [= ->]. reflexivity.
  - intros [= <-]. unfold dict_mem. rewrite E. simpl.
    rewrite dict_get_set_eq. simpl. now rewrite dict_set_set.
Qed.

Lemma update_history_Ok ph product mid ph' h :
  update_history ph product mid = Ok (ph', h) ->
  exists d old,
    ph = PDict d /\ history_of ph product = Some old /\
    h = old ++ [mid] /\ ph' = PDict (dict_set product (PList h) d).
Proof.
  intros H. destruct ph as [| | | | s|l|d]; try discriminate.
  - unfold update_history in H. simpl in H.
    destruct (index 0 product s); discriminate.
  - unfold update_history in H. simpl in H.
    destruct (existsb _ l); discriminate.
  - destruct (history_of (PDict d) product) as [old|] eqn:E.
    + rewrite (update_history_defined _ _ _ _ E) in H.
      injection H as <- <-. eauto 6.
    + exfalso. unfold history_of in E. unfold update_history in H.
      simpl in H. unfold dict_mem in H.
      destruct (dict_get product d) as [v|] eqn:G; [|discriminate].
      simpl in H. rewrite G in H. destruct v; discriminate.
Qed.

Lemma process_product_skip product od result ph :
  mid_price od = Ok None ->
  process_product product od result ph = Ok (result, ph).
Proof. intros H. unfold process_product. now rewrite H. Qed.

Lemma process_product_Ok product od result ph result' ph' :
  process_product product od result ph = Ok (result', ph') ->
  (mid_price od = Ok None /\ result' = result /\ ph' = ph) \/
  (exists mid d old orders,
     mid_price od = Ok (Some mid) /\ ph = PDict d /\
     history_of ph product = Some old /\
     signal_orders product od (old ++ [mid]) = Ok orders /\
     result' = dict_set product orders result /\
     ph' = PDict (dict_set product (PList (old ++ [mid])) d)).
Proof.
  unfold process_product. intros H.
  apply bind_Ok in H as ([mid|] & Hm & H).
  - right. apply bind_Ok in H as ([ph1 h] & Hu & H).
    apply bind_Ok in H as (orders & Hs & H). injection H as <- <-.
    apply update_history_Ok in Hu as (d & old & -> & Ho & -> & ->).
    exists mid, d, old, orders. auto 7.
  - left. injection H as <- <-. auto.
Qed.

(** A product leaves the orders and the history of every other product
    as they are. *)
Lemma process_product_other product od result ph result' ph' q :
  process_product product od result ph = Ok (result', ph') ->
  q <> product ->
  dict_get q result' = dict_get q result /\ entry ph' q = entry ph q.
Proof.
  intros H Hq.
  apply process_product_Ok in H
    as [(_ & -> & ->)|(mid & d & old & orders & _ & -> & _ & _ & -> & ->)].
  - auto.
  - simpl. now rewrite !dict_get_set_neq.
Qed.

Lemma history_of_entry ph ph' q :
  entry ph' q = entry ph q ->
  (exists d, ph = PDict d) -> (exists d, ph' = PDict d) ->
  history_of ph' q = history_of ph q.
Proof.
  intros H [d ->] [d' ->]. simpl in *. now rewrite H.
Qed.

(** ** The loop *)

Lemma run_loop_other ods : forall result ph result' ph' q,
  run_loop ods result ph = Ok (result', ph') ->
  ~ In q (map fst ods) ->
  dict_get q result' = dict_get q result /\ entry ph' q = entry ph q.
Proof.
  induction ods as [|[p od] ods IH]; simpl; intros result ph result' ph' q H Hq.
  - injection H as <- <-. auto.
  - apply bind_Ok in H as ([r1 ph1] & H1 & H).
    apply IH with (q := q) in H as [Hr He]; [|tauto].
    apply process_product_other with (q := q) in H1 as [Hr1 He1];
      [|intros ->; tauto].
    split; congruence.
Qed.

(** A history that is not a dictionary is never touched: either every
    book is empty or the run raises. *)
Lemma run_loop_dict ods : forall result ph result' ph',
  run_loop ods result ph = Ok (result', ph') ->
  (exists d, ph' = PDict d) -> ph' = ph \/ exists d, ph = PDict d.
Proof.
  induction ods as [|[p od] ods IH]; simpl; intros result ph result' ph' H Hd.
  - injection H as <- <-. auto.
  - apply bind_Ok in H as ([r1 ph1] & H1 & H).
    apply IH in H as [->|[d1 E1]]; auto;
      apply process_product_Ok in H1
        as [(_ & _ & E)|(? & d & ? & ? & _ & -> & _)]; subst; eauto.
Qed.

(** What the loop does for one product of a snapshot with distinct keys,
    in terms of the history it started from. *)
Lemma run_loop_at ods : forall result ph result' ph' product od,
  run_loop ods result ph = Ok (result', ph') ->
  NoDup (map fst ods) ->
  In (product, od) ods ->
  (mid_price od = Ok None /\
   dict_get product result' = dict_get product result /\
   entry ph' product = entry ph product) \/
  (exists mid old orders,
     mid_price od = Ok (Some mid) /\
     history_of ph product = Some old /\
     signal_orders product od (old ++ [mid]) = Ok orders /\
     dict_get product result' = Some orders /\
     entry ph' product = Some (PList (old ++ [mid]))).
Proof.
  induction ods as [|[p od0] ods IH]; simpl;
    intros result ph result' ph' product od H Hnd Hin; [contradiction|].
  inversion Hnd as [|? ? Hp Hnd']; subst.
  apply bind_Ok in H as ([r1 ph1] & H1 & H).
  destruct Hin as [[= -> ->]|Hin].
  - apply run_loop_other with (q := product) in H as [Hr He]; [|assumption].
    apply process_product_Ok in H1
      as [(Hm & -> & ->)
         |(mid & d & old & orders & Hm & -> & Ho & Hs & -> & ->)].
    + left. auto.
    + right. exists mid, old, orders. repeat split; auto.
      * now rewrite Hr, dict_get_set_eq.
      * rewrite He. simpl. now rewrite dict_get_set_eq.
  - assert (Hne : product <> p).
    { intros ->. apply Hp. now apply (in_map fst) in Hin. }
    pose proof (process_product_other _ _ _ _ _ _ product H1 Hne) as [Hr1 He1].
    destruct (IH _ _ _ _ _ _ H Hnd' Hin)
      as [(Hm & Hr & He)|(mid & old & orders & Hm & Ho & Hs & Hr & He)].
    + left. repeat split; congruence.
    + right. exists mid, old, orders. repeat split; auto.
      apply process_product_Ok in H1
        as [(_ & _ & ->)|(? & d & ? & ? & _ & -> & _ & _ & _ & ->)]; auto.
      simpl in *. rewrite dict_get_set_neq in Ho; auto.
Qed.

(** ** Slices and windows *)

Lemma py_slice_last {A : Type} (l : list A) (w : Z) :
  0 < w <= Z.of_nat (List.length l) ->
  py_slice l (Some (- w)) None = lastn (Z.to_nat w) l.
Proof.
  intros Hw. unfold py_slice, slice_bound, lastn.
  destruct (Z.ltb_spec (- w) 0) as [_|]; [|lia].
  replace (Z.max 0 (Z.min (Z.of_nat (List.length l))
                          (- w + Z.of_nat (List.length l))))
    with (Z.of_nat (List.length l) - w) by lia.
  replace (Z.to_nat (Z.of_nat (List.length l) - w))
    with (List.length l - Z.to_nat w)%nat by lia.
  apply firstn_all2. rewrite length_skipn. lia.
Qed.

Lemma py_slice_prev {A : Type} (l : list A) (w : Z) :
  0 < w < Z.of_nat (List.length l) ->
  py_slice l (Some (- w - 1)) (Some (-1))
  = lastn (Z.to_nat w) (removelast l).
Proof.
  intros Hw. unfold py_slice, slice_bound, lastn.
  destruct (Z.ltb_spec (- w - 1) 0) as [_|]; [|lia].
  change (-1 <? 0) with true. cbv iota.
  set (n := List.length l) in *.
  replace (Z.max 0 (Z.min (Z.of_nat n) (- w - 1 + Z.of_nat n)))
    with (Z.of_nat n - w - 1) by lia.
  replace (Z.max 0 (Z.min (Z.of_nat n) (-1 + Z.of_nat n)))
    with (Z.of_nat n - 1) by lia.
  replace (Z.to_nat (Z.of_nat n - 1 - (Z.of_nat n - w - 1)))
    with (Z.to_nat w) by lia.
  replace (Z.to_nat (Z.of_nat n - w - 1)) with (n - 1 - Z.to_nat w)%nat by lia.
  rewrite removelast_firstn_len. fold n.
  assert (E : List.length (firstn (Nat.pred n) l) = (n - 1)%nat).
  { rewrite length_firstn. fold n. lia. }
  rewrite E.
  rewrite skipn_firstn_comm.
  f_equal. lia.
Qed.

Lemma length_lastn {A : Type} (n : nat) (l : list A) :
  (n <= List.length l)%nat -> List.length (lastn n l) = n.
Proof. intros H. unfold lastn. rewrite length_skipn. lia. Qed.

Lemma fold_left_min_spec (l : list Z) : forall a,
  In (fold_left Z.min l a) (a :: l) /\
  forall k, In k (a :: l) -> fold_left Z.min l a <= k.
Proof.
  induction l as [|x l IH]; intros a; simpl.
  - split; [auto|]. intros k [<-|[]]. lia.
  - destruct (IH (Z.min a x)) as [Hin Hle]. split.
    + destruct Hin as [E|Hin]; [|auto].
      rewrite <- E. destruct (Z.min_spec a x) as [[_ ->]|[_ ->]]; auto.
    + intros k [<-|[<-|Hk]].
      * specialize (Hle (Z.min a x) (or_introl eq_refl)). lia.
      * specialize (Hle (Z.min a x) (or_introl eq_refl)). lia.
      * apply Hle. now right.
Qed.

Lemma fold_left_max_spec (l : list Z) : forall a,
  In (fold_left Z.max l a) (a :: l) /\
  forall k, In k (a :: l) -> k <= fold_left Z.max l a.
Proof.
  induction l as [|x l IH]; intros a; simpl.
  - split; [auto|]. intros k [<-|[]]. lia.
  - destruct (IH (Z.max a x)) as [Hin Hle]. split.
    + destruct Hin as [E|Hin]; [|auto].
      rewrite <- E. destruct (Z.max_spec a x) as [[_ ->]|[_ ->]]; auto.
    + intros k [<-|[<-|Hk]].
      * specialize (Hle (Z.max a x) (or_introl eq_refl)). lia.
      * specialize (Hle (Z.max a x) (or_introl eq_refl)). lia.
      * apply Hle. now right.
Qed.

Lemma py_min_keys (d : list (Z * Z)) :
  d <> [] -> exists k, py_min (keys d) = Ok k /\ is_min_key k d.
Proof.
  destruct d as [|[k0 q0] d]; [congruence|]. intros _.
  unfold py_min, is_min_key, keys. simpl.
  eexists. split; [reflexivity|]. apply fold_left_min_spec.
Qed.

Lemma py_max_keys (d : list (Z * Z)) :
  d <> [] -> exists k, py_max (keys d) = Ok k /\ is_max_key k d.
Proof.
  destruct d as [|[k0 q0] d]; [congruence|]. intros _.
  unfold py_max, is_max_key, keys. simpl.
  eexists. split; [reflexivity|]. apply fold_left_max_spec.
Qed.

Lemma nonempty_true {A : Type} (l : list A) : l <> [] -> nonempty l = true.
Proof. destruct l; [congruence|reflexivity]. Qed.

(** ** The signal *)

Lemma sma_last h w :
  0 < w <= Z.of_nat (List.length h) ->
  sma h (Some (- w)) None w = mean (lastn (Z.to_nat w) h).
Proof.
  intros Hw. unfold sma, mean. rewrite py_slice_last by assumption.
  rewrite length_lastn by lia. now rewrite Z2Nat.id by lia.
Qed.

Lemma sma_prev h w :
  0 < w < Z.of_nat (List.length h) ->
  sma h (Some (- w - 1)) (Some (-1)) w
  = mean (lastn (Z.to_nat w) (removelast h)).
Proof.
  intros Hw. unfold sma, mean. rewrite py_slice_prev by assumption.
  rewrite length_lastn.
  - now rewrite Z2Nat.id by lia.
  - rewrite removelast_firstn_len, length_firstn. lia.
Qed.

Lemma signal_orders_long product od h :
  (7 <= List.length h)%nat ->
  signal_orders product od h =
  (sma_short <- mean (lastn 3 h) ;;
   sma_long <- mean (lastn 6 h) ;;
   sma_short_prev <- mean (lastn 3 (removelast h)) ;;
   sma_long_prev <- mean (lastn 6 (removelast h)) ;;
   if crossover sma_short_prev sma_long_prev sma_short sma_long then
     if nonempty (sell_orders od) then
       best_ask <- py_min (keys (sell_orders od)) ;;
       'tt <- py_print best_ask ;;
       Ok [buy_order product best_ask]
     else Ok []
   else Ok []).
Proof.
  intros Hlen. unfold signal_orders, short_window, long_window.
  destruct (Z.geb_spec (Z.of_nat (List.length h)) (6 + 1)) as [_|]; [|lia].
  rewrite (sma_last h 3), (sma_last h 6) by lia.
  rewrite (sma_prev h 3), (sma_prev h 6) by lia.
  reflexivity.
Qed.

Lemma signal_orders_short product od h :
  (List.length h < 7)%nat -> signal_orders product od h = Ok [].
Proof.
  intros Hlen. unfold signal_orders, short_window, long_window.
  destruct (Z.geb_spec (Z.of_nat (List.length h)) (6 + 1)); [lia|reflexivity].
Qed.

(** ** Runs that return *)

Lemma int_bound_fits : 6 * int_bound < F64.overflow_threshold.
Proof. vm_compute. reflexivity. Qed.

Lemma int_bound_pos : 0 < int_bound.
Proof. vm_compute. reflexivity. Qed.

Lemma int_bound_prints : int_bound < str_digits_bound.
Proof. vm_compute. reflexivity. Qed.

#[local] Opaque int_bound F64.overflow_threshold str_digits_bound.

Lemma py_print_defined z : small_int z -> py_print z = Ok tt.
Proof.
  unfold small_int, py_print. intros H. pose proof int_bound_prints.
  destruct (Z.ltb_spec (Z.abs z) str_digits_bound); [reflexivity|lia].
Qed.

Lemma py_print_Ok z u : py_print z = Ok u -> Z.abs z < str_digits_bound.
Proof.
  unfold py_print.
  destruct (Z.ltb_spec (Z.abs z) str_digits_bound); [trivial|discriminate].
Qed.

Lemma float_of_int_defined z :
  Z.abs z <= 6 * int_bound -> float_of_int z = Ok (F64.of_Z z).
Proof.
  intros H. unfold float_of_int. pose proof int_bound_fits.
  destruct (Z.ltb_spec (Z.abs z) F64.overflow_threshold); [reflexivity|lia].
Qed.

Lemma py_sum_from_defined l : forall acc,
  Forall number l ->
  partial_sum (Z.of_nat (List.length l)) acc ->
  exists r, py_sum_from acc l = Ok r /\ partial_sum 0 r.
Proof.
  pose proof int_bound_pos as Hb.
  induction l as [|x l IH]; intros acc Hl Hacc; simpl.
  - eauto.
  - inversion Hl as [|? ? Hx Hl']; subst.
    assert (Hstep : exists acc', py_add acc x = Ok acc' /\
                      partial_sum (Z.of_nat (List.length l)) acc').
    { assert (Hn : 0 <= Z.of_nat (List.length l) * int_bound)
        by (apply Z.mul_nonneg_nonneg; lia).
      unfold partial_sum in Hacc. rewrite length_cons, Nat2Z.inj_succ in Hacc.
      destruct acc as [| |z|f| | |]; try contradiction;
        destruct x as [| |zx|fx| | |]; try contradiction;
        unfold py_add; simpl as_num; cbv beta iota; simpl bind;
        unfold number, small_int in Hx.
      - eexists. split; [reflexivity|]. unfold partial_sum. lia.
      - rewrite float_of_int_defined by lia. simpl. eauto.
      - rewrite float_of_int_defined by lia. simpl. eauto.
      - simpl. eauto. }
    destruct Hstep as (acc' & -> & Hacc'). simpl. now apply IH.
Qed.

Lemma mean_defined w :
  Forall number w -> (0 < List.length w <= 6)%nat ->
  exists f, mean w = Ok f.
Proof.
  intros Hw Hlen. unfold mean, py_sum.
  destruct (py_sum_from_defined w (PInt 0) Hw) as (r & -> & Hr).
  { unfold partial_sum. pose proof int_bound_pos. nia. }
  simpl. pose proof int_bound_fits as Hf. pose proof int_bound_pos as Hb.
  destruct r as [| |z|f| | |]; try contradiction; unfold partial_sum in Hr.
  - unfold py_truediv, int_truediv. simpl.
    destruct (Z.eqb_spec (Z.of_nat (List.length w)) 0); [lia|].
    destruct (Z.ltb_spec (Z.abs z)
                (Z.abs (Z.of_nat (List.length w)) * F64.overflow_threshold))
      as [_|Hge]; [eauto|].
    rewrite Z.abs_eq in Hge by lia.
    assert (1 * F64.overflow_threshold
            <= Z.of_nat (List.length w) * F64.overflow_threshold)
      by (apply Z.mul_le_mono_nonneg_r; lia).
    lia.
  - unfold py_truediv. simpl.
    rewrite float_of_int_defined by lia. simpl.
    assert (E : F64.is_zero (F64.of_Z (Z.of_nat (List.length w))) = false).
    { destruct (List.length w) as [|[|[|[|[|[|[|n]]]]]]]; try lia;
        reflexivity. }
    rewrite E. eauto.
Qed.

Lemma Forall_lastn {A : Type} (P : A -> Prop) n (l : list A) :
  Forall P l -> Forall P (lastn n l).
Proof.
  intros H. unfold lastn. rewrite <- (firstn_skipn (List.length l - n) l) in H.
  now apply Forall_app in H.
Qed.

Lemma Forall_removelast {A : Type} (P : A -> Prop) (l : list A) :
  Forall P l -> Forall P (removelast l).
Proof.
  intros H. rewrite removelast_firstn_len.
  rewrite <- (firstn_skipn (Nat.pred (List.length l)) l) in H.
  now apply Forall_app in H.
Qed.

Lemma small_max (l : list Z) x :
  Forall small_int (x :: l) -> small_int (fold_left Z.max l x).
Proof.
  intros H. destruct (fold_left_max_spec l x) as [Hin _].
  rewrite Forall_forall in H. auto.
Qed.

Lemma small_min (l : list Z) x :
  Forall small_int (x :: l) -> small_int (fold_left Z.min l x).
Proof.
  intros H. destruct (fold_left_min_spec l x) as [Hin _].
  rewrite Forall_forall in H. auto.
Qed.

Lemma signal_orders_defined product od h :
  Forall small_int (keys (sell_orders od)) ->
  Forall number h -> exists orders, signal_orders product od h = Ok orders.
Proof.
  intros Ha Hh. destruct (Nat.lt_ge_cases (List.length h) 7) as [Hlen|Hlen].
  - rewrite signal_orders_short by assumption. eauto.
  - rewrite signal_orders_long by assumption.
    assert (Hr : List.length (removelast h) = Nat.pred (List.length h)).
    { rewrite removelast_firstn_len, length_firstn. lia. }
    destruct (mean_defined (lastn 3 h)) as [s ->];
      [now apply Forall_lastn|rewrite length_lastn; lia|].
    destruct (mean_defined (lastn 6 h)) as [l ->];
      [now apply Forall_lastn|rewrite length_lastn; lia|].
    destruct (mean_defined (lastn 3 (removelast h))) as [sp ->];
      [now apply Forall_lastn, Forall_removelast
      |rewrite length_lastn; lia|].
    destruct (mean_defined (lastn 6 (removelast h))) as [lp ->];
      [now apply Forall_lastn, Forall_removelast
      |rewrite length_lastn; lia|].
    cbn [bind]. destruct (crossover sp lp s l); [|eauto].
    destruct (sell_orders od) as [|[a q] d] eqn:E; [simpl; eauto|].
    cbn [nonempty keys map fst py_min bind].
    rewrite py_print_defined by (apply small_min; exact Ha).
    cbn [bind]. eauto.
Qed.

Lemma mid_price_defined od :
  Forall small_int (keys (buy_orders od)) ->
  Forall small_int (keys (sell_orders od)) ->
  exists m, mid_price od = Ok m /\ forall v, m = Some v -> number v.
Proof.
  intros Hb Hs. unfold mid_price.
  destruct (buy_orders od) as [|[b qb] bs];
    destruct (sell_orders od) as [|[a qa] ss]; simpl in *.
  - eexists. split; [reflexivity|]. discriminate.
  - eexists. split; [reflexivity|]. intros v [= <-]. now apply small_min.
  - eexists. split; [reflexivity|]. intros v [= <-]. now apply small_max.
  - apply small_max in Hb. apply small_min in Hs.
    unfold small_int in *. pose proof int_bound_pos.
    unfold py_truediv. simpl. rewrite float_of_int_defined by lia. simpl.
    eexists. split; [reflexivity|]. intros v [= <-]. exact I.
Qed.

Lemma history_mapping_history d product :
  history_mapping (PDict d) ->
  exists old, history_of (PDict d) product = Some old /\ Forall number old.
Proof.
  simpl. intros H. destruct (dict_get product d) as [v|] eqn:E.
  - apply dict_get_In in E. rewrite Forall_forall in H.
    specialize (H _ E). simpl in H. destruct v; try contradiction. eauto.
  - eauto.
Qed.

Lemma history_mapping_set d product l :
  history_mapping (PDict d) -> Forall number l ->
  history_mapping (PDict (dict_set product (PList l) d)).
Proof.
  simpl. intros H Hl. rewrite Forall_forall in H. apply Forall_forall.
  intros kv Hin. apply In_dict_set in Hin as [->|Hin]; [exact Hl|now apply H].
Qed.

Lemma process_product_defined product od result ph :
  Forall small_int (keys (buy_orders od)) ->
  Forall small_int (keys (sell_orders od)) ->
  history_mapping ph ->
  exists result' ph',
    process_product product od result ph = Ok (result', ph') /\
    history_mapping ph'.
Proof.
  intros Hb Hs Hph. unfold process_product.
  destruct (mid_price_defined od Hb Hs) as ([mid|] & -> & Hm); simpl.
  - destruct ph as [| | | | | |d]; try contradiction.
    destruct (history_mapping_history d product Hph) as (old & Ho & Hold).
    rewrite (update_history_defined _ _ mid _ Ho). simpl.
    assert (Hh : Forall number (old ++ [mid])).
    { apply Forall_app. split; [assumption|]. constructor; auto. }
    destruct (signal_orders_defined product od _ Hs Hh) as [orders ->]. simpl.
    do 2 eexists. split; [reflexivity|]. now apply history_mapping_set.
  - eauto.
Qed.

Lemma run_loop_defined ods : forall result ph,
  prices_in_range ods -> history_mapping ph ->
  exists result' ph',
    run_loop ods result ph = Ok (result', ph') /\ history_mapping ph'.
Proof.
  induction ods as [|[p od] ods IH]; intros result ph Hp Hph; simpl.
  - eauto.
  - inversion Hp as [|? ? [Hb Hs] Hp']; subst. simpl in *.
    destruct (process_product_defined p od result ph Hb Hs Hph)
      as (r1 & ph1 & -> & Hph1).
    simpl. now apply IH.
Qed.


(** Products without a derivable mid-price keep their orders and their
    history. *)
Lemma run_loop_untouched ods : forall result ph result' ph' q,
  run_loop ods result ph = Ok (result', ph') ->
  (forall od, In (q, od) ods -> mid_price od = Ok None) ->
  dict_get q result' = dict_get q result /\ entry ph' q = entry ph q.
Proof.
  induction ods as [|[p od] ods IH]; simpl; intros result ph result' ph' q H Hq.
  - injection H as <- <-. auto.
  - apply bind_Ok in H as ([r1 ph1] & H1 & H).
    apply IH with (q := q) in H as [Hr He]; [|now auto].
    destruct (String.eqb_spec q p) as [->|Hne].
    + rewrite process_product_skip in H1 by auto.
      injection H1 as <- <-. auto.
    + apply process_product_other with (q := q) in H1 as [Hr1 He1]; auto.
      split; congruence.
Qed.

Lemma NoDup_fst_unique {A B : Type} (l : list (A * B)) k a b :
  NoDup (map fst l) -> In (k, a) l -> In (k, b) l -> a = b.
Proof.
  induction l as [|[k0 v0] l IH]; simpl; [contradiction|].
  intros Hnd Ha Hb. inversion Hnd as [|? ? Hk Hnd']; subst.
  destruct Ha as [Ea|Ha]; destruct Hb as [Eb|Hb].
  - congruence.
  - injection Ea as -> ->. exfalso. apply Hk. now apply (in_map fst) in Hb.
  - injection Eb as -> ->. exfalso. apply Hk. now apply (in_map fst) in Ha.
  - auto.
Qed.

(** ** binary64 *)

(** The guards of [float_of_int] and [int_truediv] sit where rounding
    leaves the doubles: the largest double just below, infinity at the
    threshold. *)
Example of_Z_below_threshold :
  F64.of_Z (F64.overflow_threshold - 1)
  = S754_finite false 9007199254740991 971.
Proof. vm_compute. reflexivity. Qed.

Example of_Z_at_threshold :
  F64.of_Z F64.overflow_threshold = S754_infinity false.
Proof. vm_compute. reflexivity. Qed.

Example quotient_below_threshold :
  F64.div (F64.exact (3 * F64.overflow_threshold - 1)) (F64.exact 3)
  = S754_finite false 9007199254740991 971.
Proof. vm_compute. reflexivity. Qed.

Example quotient_at_threshold :
  F64.div (F64.exact (3 * F64.overflow_threshold)) (F64.exact 3)
  = S754_infinity false.
Proof. vm_compute. reflexivity. Qed.

(** Halves of integers below [2^53] are exact. *)

Lemma digits2_size p : digits2_pos p = Pos.size p.
Proof. induction p; simpl; congruence. Qed.

Lemma digits2_bound p k : Zpos p < 2 ^ k -> 0 <= k -> Zpos (digits2_pos p) <= k.
Proof.
  intros H Hk. rewrite digits2_size.
  pose proof (Pos.size_le p) as Hle.
  assert (H2 : 2 ^ Zpos (Pos.size p) <= 2 * Zpos p).
  { change (2 * Zpos p) with (Zpos p~0). rewrite <- Pos2Z.inj_pow. exact Hle. }
  destruct (Z.le_gt_cases (Zpos (Pos.size p)) k) as [|Hgt]; [assumption|].
  assert (Hpow : 2 ^ (k + 1) <= 2 ^ Zpos (Pos.size p))
    by (apply Z.pow_le_mono_r; lia).
  rewrite Z.pow_add_r in Hpow by lia. lia.
Qed.

Lemma digits2_iter p k :
  digits2_pos (Pos.iter xO p k) = (digits2_pos p + k)%positive.
Proof.
  induction k using Pos.peano_ind.
  - simpl. lia.
  - rewrite Pos.iter_succ. simpl. rewrite IHk. lia.
Qed.

Lemma iter_xO_value p k : Zpos (Pos.iter xO p k) = Zpos p * 2 ^ Zpos k.
Proof.
  induction k using Pos.peano_ind.
  - simpl. lia.
  - rewrite Pos.iter_succ, Pos2Z.inj_xO, IHk, Pos2Z.inj_succ, Z.pow_succ_r
      by lia.
    lia.
Qed.

Lemma shr_fexp_canonical m e :
  Zpos (digits2_pos m) = 53 -> -1074 <= e ->
  shr_fexp F64.prec F64.emax (Zpos m) e loc_Exact
  = ({| shr_m := Zpos m; shr_r := false; shr_s := false |}, e).
Proof.
  intros Hd He. unfold shr_fexp, fexp, emin, F64.prec, F64.emax.
  change (Zdigits2 (Z.pos m)) with (Zpos (digits2_pos m)). rewrite Hd.
  replace (Z.max (53 + e - 53) (3 - 1024 - 53)) with e by lia.
  rewrite Z.sub_diag. reflexivity.
Qed.

Lemma round_canonical s m e :
  Zpos (digits2_pos m) = 53 -> -1074 <= e <= 971 ->
  binary_round_aux F64.prec F64.emax s (Zpos m) e loc_Exact = S754_finite s m e.
Proof.
  intros Hd He. unfold binary_round_aux.
  rewrite shr_fexp_canonical by lia.
  cbn [shr_m loc_of_shr_record round_nearest_even].
  rewrite shr_fexp_canonical by lia. cbn [shr_m].
  unfold F64.prec, F64.emax.
  destruct (Z.leb_spec e (1024 - 53)); [reflexivity|lia].
Qed.

(** The double nearest to an integer below [2^53] is the integer. *)
Lemma of_Z_small p :
  Zpos p < 2 ^ 53 ->
  exists m e,
    Zpos (digits2_pos m) = 53 /\ -52 <= e <= 0 /\
    Zpos m = Zpos p * 2 ^ (- e) /\
    forall s, binary_round F64.prec F64.emax s p 0 = S754_finite s m e.
Proof.
  intros Hp. pose proof (digits2_bound p 53 Hp ltac:(lia)) as Hd.
  unfold binary_round, shl_align, fexp, emin, F64.prec, F64.emax.
  replace (Z.max (Z.pos (digits2_pos p) + 0 - 53) (3 - 1024 - 53))
    with (Z.pos (digits2_pos p) - 53) by lia.
  rewrite Z.sub_0_r.
  destruct (Z.pos (digits2_pos p) - 53) as [|k|k] eqn:E; try lia.
  - exists p, 0. repeat split; try lia.
    intros s. apply round_canonical; lia.
  - exists (Pos.iter xO p k), (Z.neg k). repeat split; try lia.
    + rewrite digits2_iter. lia.
    + rewrite iter_xO_value. reflexivity.
    + intros s. apply round_canonical; [rewrite digits2_iter|]; lia.
Qed.

Lemma div_eucl_pair a b : Z.div_eucl a b = (a / b, a mod b).
Proof. unfold Z.div, Z.modulo. now destruct (Z.div_eucl a b). Qed.

Lemma div_core_two m e :
  Zpos (digits2_pos m) = 53 -> -52 <= e <= 0 ->
  SFdiv_core_binary F64.prec F64.emax (Zpos m) e 4503599627370496 (-51)
  = (Zpos m~0, e - 2, loc_Exact).
Proof.
  intros Hd He. unfold SFdiv_core_binary, fexp, emin, F64.prec, F64.emax.
  change (Zdigits2 (Z.pos m)) with (Zpos (digits2_pos m)). rewrite Hd.
  change (Zdigits2 4503599627370496) with 53.
  replace (Z.min (Z.max (53 + e - (53 + -51) - 53) (3 - 1024 - 53)) (e - -51))
    with (e - 2) by lia.
  replace (e - -51 - (e - 2)) with 53 by lia. cbv iota.
  rewrite Z.shiftl_mul_pow2 by lia. rewrite div_eucl_pair.
  replace (Z.pos m * 2 ^ 53) with (Zpos m~0 * 4503599627370496)
    by (rewrite (Pos2Z.inj_xO m); change (2 ^ 53) with (2 * 4503599627370496);
        ring).
  rewrite Z.div_mul, Z.mod_mul by discriminate. reflexivity.
Qed.

Lemma div_two_canonical s m e :
  Zpos (digits2_pos m) = 53 -> -52 <= e <= 0 ->
  F64.div (S754_finite s m e) F64.two = S754_finite s m (e - 1).
Proof.
  intros Hd He. unfold F64.div, F64.two, SFdiv.
  rewrite div_core_two by assumption.
  unfold binary_round_aux, shr_fexp at 1, fexp, emin, F64.prec, F64.emax.
  change (Zdigits2 (Z.pos m~0)) with (Zpos (Pos.succ (digits2_pos m))).
  rewrite Pos2Z.inj_succ, Hd.
  replace (Z.max (Z.succ 53 + (e - 2) - 53) (3 - 1024 - 53)) with (e - 1)
    by lia.
  replace (e - 1 - (e - 2)) with 1 by lia.
  cbn [shr shr_record_of_loc iter_pos shr_1 shr_m loc_of_shr_record
       round_nearest_even].
  replace (e - 2 + 1) with (e - 1) by lia.
  cbn [orb]. cbn [round_nearest_even].
  change (shr_fexp 53 1024) with (shr_fexp F64.prec F64.emax).
  rewrite shr_fexp_canonical by lia. cbn [shr_m].
  rewrite xorb_false_r.
  destruct (Z.leb_spec (e - 1) (1024 - 53)); [reflexivity|lia].
Qed.

Lemma half_exact n :
  Z.abs n < 2 ^ 53 ->
  exists f, py_truediv (PInt n) (PFloat F64.two) = Ok f /\ F64.value_is f n 2.
Proof.
  intros Hn. unfold py_truediv. simpl as_num. cbn [bind to_float].
  unfold float_of_int.
  assert (Hlt : Z.abs n < F64.overflow_threshold).
  { apply Z.lt_trans with (1 := Hn). vm_compute. reflexivity. }
  destruct (Z.ltb_spec (Z.abs n) F64.overflow_threshold); [|lia].
  cbn [bind]. change (F64.is_zero F64.two) with false. cbv iota.
  unfold F64.of_Z, binary_normalize.
  destruct n as [|p|p].
  - eexists. split; [reflexivity|]. reflexivity.
  - destruct (of_Z_small p Hn) as (m & e & Hd & He & Hm & Hr).
    rewrite Hr, div_two_canonical by assumption.
    eexists. split; [reflexivity|]. unfold F64.value_is.
    destruct (Z.leb_spec 0 (e - 1)); [lia|]. rewrite Hm.
    replace (- (e - 1)) with (- e + 1) by lia.
    rewrite Z.pow_add_r by lia. ring.
  - destruct (of_Z_small p Hn) as (m & e & Hd & He & Hm & Hr).
    rewrite Hr, div_two_canonical by assumption.
    eexists. split; [reflexivity|]. unfold F64.value_is.
    destruct (Z.leb_spec 0 (e - 1)); [lia|].
    replace (- (e - 1)) with (- e + 1) by lia.
    rewrite Z.pow_add_r by lia.
    change (Z.neg m) with (- Zpos m). change (Z.neg p) with (- Zpos p).
    rewrite Hm. ring.
Qed.

(** ** The claims about [run] *)

Section EngineFacts.

Variable json_loads : string -> option pyval.
Variable json_dumps : pyval -> string.

Lemma run_Ok state result conversions data :
  run json_loads json_dumps state = Ok (result, conversions, data) ->
  exists ph',
    run_loop (order_depths state) []
      (load_history json_loads (traderData state)) = Ok (result, ph') /\
    conversions = 1 /\ data = json_dumps ph'.
Proof.
  unfold run. intros H. apply bind_Ok in H as ([r ph'] & Hl & H).
  injection H as <- <- <-. eauto.
Qed.

(** C1.  A product whose history has at least seven mid-prices after the
    append: the four averages are the means of the last three and the
    last six values, of the history and of the history without its last
    value; the product's orders are one buy of 10 at the best ask when
    [sma_short_prev <= sma_long_prev], [sma_short > sma_long] and there
    is a sell order, and no order otherwise. *)
Theorem buy_signal_iff_crossover
  state result conversions data product od mid old :
  NoDup (map fst (order_depths state)) ->
  run json_loads json_dumps state = Ok (result, conversions, data) ->
  In (product, od) (order_depths state) ->
  mid_price od = Ok (Some mid) ->
  history_of (load_history json_loads (traderData state)) product
  = Some old ->
  (7 <= List.length (old ++ [mid]))%nat ->
  exists sma_short sma_long sma_short_prev sma_long_prev,
    mean (lastn 3 (old ++ [mid])) = Ok sma_short /\
    mean (lastn 6 (old ++ [mid])) = Ok sma_long /\
    mean (lastn 3 (removelast (old ++ [mid]))) = Ok sma_short_prev /\
    mean (lastn 6 (removelast (old ++ [mid]))) = Ok sma_long_prev /\
    (F64.leb sma_short_prev sma_long_prev = true ->
     F64.ltb sma_long sma_short = true ->
     sell_orders od <> [] ->
     exists best_ask,
       is_min_key best_ask (sell_orders od) /\
       dict_get product result = Some [buy_order product best_ask]) /\
    (F64.leb sma_short_prev sma_long_prev = false \/
     F64.ltb sma_long sma_short = false \/
     sell_orders od = [] ->
     dict_get product result = Some []).
Proof.
  intros Hnd Hrun Hin Hmid Hold Hlen.
  apply run_Ok in Hrun as (ph' & Hloop & _ & _).
  destruct (run_loop_at _ _ _ _ _ _ _ Hloop Hnd Hin)
    as [(Hm & _)|(mid' & old' & orders & Hm & Ho & Hs & Hr & _)];
    [congruence|].
  assert (mid' = mid) by congruence. assert (old' = old) by congruence.
  subst mid' old'. rewrite signal_orders_long in Hs by assumption.
  apply bind_Ok in Hs as (s & Es & Hs). apply bind_Ok in Hs as (l & El & Hs).
  apply bind_Ok in Hs as (sp & Esp & Hs).
  apply bind_Ok in Hs as (lp & Elp & Hs).
  exists s, l, sp, lp. repeat (split; [assumption|]).
  unfold crossover in Hs. split.
  - intros Hle Hlt Hsell. rewrite Hle, Hlt in Hs. simpl in Hs.
    rewrite (nonempty_true _ Hsell) in Hs.
    destruct (py_min_keys _ Hsell) as (a & Ea & Hmin).
    rewrite Ea in Hs. cbn [bind] in Hs.
    apply bind_Ok in Hs as ([] & _ & Hs). injection Hs as <-. eauto.
  - intros [Hle|[Hlt|Hsell]].
    + rewrite Hle in Hs. simpl in Hs. congruence.
    + rewrite Hlt, andb_false_r in Hs. congruence.
    + rewrite Hsell in Hs. simpl in Hs.
      destruct (_ && _); congruence.
Qed.

(** C7.  A product whose history has fewer than seven mid-prices after
    the append gets no order, and the returned state holds the longer
    history. *)
Theorem no_order_below_seven
  state result conversions data product od mid old :
  NoDup (map fst (order_depths state)) ->
  run json_loads json_dumps state = Ok (result, conversions, data) ->
  In (product, od) (order_depths state) ->
  mid_price od = Ok (Some mid) ->
  history_of (load_history json_loads (traderData state)) product
  = Some old ->
  (List.length (old ++ [mid]) < 7)%nat ->
  dict_get product result = Some [] /\
  exists ph',
    data = json_dumps ph' /\
    history_of ph' product = Some (old ++ [mid]).
Proof.
  intros Hnd Hrun Hin Hmid Hold Hlen.
  apply run_Ok in Hrun as (ph' & Hloop & _ & ->).
  destruct (run_loop_at _ _ _ _ _ _ _ Hloop Hnd Hin)
    as [(Hm & _)|(mid' & old' & orders & Hm & Ho & Hs & Hr & He)];
    [congruence|].
  assert (mid' = mid) by congruence. assert (old' = old) by congruence.
  subst mid' old'. rewrite signal_orders_short in Hs by assumption.
  split; [congruence|]. exists ph'. split; [reflexivity|].
  destruct ph'; try discriminate. simpl in *. now rewrite He.
Qed.

(** C8.  When the crossover condition holds and the product has no sell
    order, the product gets no order. *)
Theorem no_order_without_sell_orders
  state result conversions data product od mid old
  sma_short sma_long sma_short_prev sma_long_prev :
  NoDup (map fst (order_depths state)) ->
  run json_loads json_dumps state = Ok (result, conversions, data) ->
  In (product, od) (order_depths state) ->
  mid_price od = Ok (Some mid) ->
  history_of (load_history json_loads (traderData state)) product
  = Some old ->
  (7 <= List.length (old ++ [mid]))%nat ->
  mean (lastn 3 (old ++ [mid])) = Ok sma_short ->
  mean (lastn 6 (old ++ [mid])) = Ok sma_long ->
  mean (lastn 3 (removelast (old ++ [mid]))) = Ok sma_short_prev ->
  mean (lastn 6 (removelast (old ++ [mid]))) = Ok sma_long_prev ->
  F64.leb sma_short_prev sma_long_prev = true ->
  F64.ltb sma_long sma_short = true ->
  sell_orders od = [] ->
  dict_get product result = Some [].
Proof.
  intros Hnd Hrun Hin Hmid Hold Hlen Es El Esp Elp Hle Hlt Hsell.
  apply run_Ok in Hrun as (ph' & Hloop & _ & _).
  destruct (run_loop_at _ _ _ _ _ _ _ Hloop Hnd Hin)
    as [(Hm & _)|(mid' & old' & orders & Hm & Ho & Hs & Hr & _)];
    [congruence|].
  assert (mid' = mid) by congruence. assert (old' = old) by congruence.
  subst mid' old'. rewrite signal_orders_long in Hs by assumption.
  rewrite Es, El, Esp, Elp in Hs. simpl in Hs. unfold crossover in Hs.
  rewrite Hle, Hlt, Hsell in Hs. simpl in Hs. congruence.
Qed.

(** C10.  The second component of a returned triple is 1. *)
Theorem conversions_is_one state result conversions data :
  run json_loads json_dumps state = Ok (result, conversions, data) ->
  conversions = 1.
Proof. intros H. now apply run_Ok in H as (? & _ & -> & _). Qed.



(** C2.  The mid-price of a book: with both sides, the binary64 mean
    [(best_bid + best_ask) / 2.0] of the largest buy price and the
    smallest sell price, which is a float of value exactly
    [(best_bid + best_ask) / 2] when the sum is below [2^53] in
    magnitude; with one side, that side's best price; with neither, none,
    and then a run leaves the product out of the result and leaves its
    history entry as it was. *)
Theorem mid_price_derivation od :
  (buy_orders od <> [] -> sell_orders od <> [] ->
   exists best_bid best_ask,
     is_max_key best_bid (buy_orders od) /\
     is_min_key best_ask (sell_orders od) /\
     mid_price od =
     (m <- py_truediv (PInt (best_bid + best_ask)) (PFloat F64.two) ;;
      Ok (Some (PFloat m))) /\
     (Z.abs (best_bid + best_ask) < 2 ^ 53 ->
      exists m,
        mid_price od = Ok (Some (PFloat m)) /\
        F64.value_is m (best_bid + best_ask) 2)) /\
  (buy_orders od <> [] -> sell_orders od = [] ->
   exists best_bid,
     is_max_key best_bid (buy_orders od) /\
     mid_price od = Ok (Some (PInt best_bid))) /\
  (buy_orders od = [] -> sell_orders od <> [] ->
   exists best_ask,
     is_min_key best_ask (sell_orders od) /\
     mid_price od = Ok (Some (PInt best_ask))) /\
  (buy_orders od = [] -> sell_orders od = [] ->
   mid_price od = Ok None /\
   forall state result conversions data product,
     NoDup (map fst (order_depths state)) ->
     In (product, od) (order_depths state) ->
     run json_loads json_dumps state = Ok (result, conversions, data) ->
     dict_get product result = None /\
     exists ph',
       data = json_dumps ph' /\
       entry ph' product
       = entry (load_history json_loads (traderData state)) product).
Proof.
  unfold mid_price. split; [|split; [|split]].
  - intros Hb Hs. rewrite (nonempty_true _ Hb), (nonempty_true _ Hs).
    destruct (py_max_keys _ Hb) as (b & -> & Hmax).
    destruct (py_min_keys _ Hs) as (a & -> & Hmin).
    exists b, a. repeat (split; [solve [auto]|]).
    intros Hsmall. destruct (half_exact _ Hsmall) as (f & Hf & Hv).
    exists f. cbn [bind py_add as_num]. rewrite Hf. auto.
  - intros Hb Hs. rewrite (nonempty_true _ Hb), Hs.
    destruct (py_max_keys _ Hb) as (b & -> & Hmax). simpl. eauto.
  - intros Hb Hs. rewrite Hb, (nonempty_true _ Hs).
    destruct (py_min_keys _ Hs) as (a & -> & Hmin). simpl. eauto.
  - intros Hb Hs. rewrite Hb, Hs. split; [reflexivity|].
    intros state result conversions data product Hnd Hin Hrun.
    apply run_Ok in Hrun as (ph' & Hloop & _ & ->).
    assert (Hq : forall od', In (product, od') (order_depths state) ->
                             mid_price od' = Ok None).
    { intros od' Hin'.
      rewrite (NoDup_fst_unique _ _ _ _ Hnd Hin' Hin).
      unfold mid_price. now rewrite Hb, Hs. }
    destruct (run_loop_untouched _ _ _ _ _ product Hloop Hq) as [-> He].
    split; [reflexivity|]. eauto.
Qed.

Lemma run_defined state :
  prices_in_range (order_depths state) ->
  history_mapping (load_history json_loads (traderData state)) ->
  exists result data,
    run json_loads json_dumps state = Ok (result, 1, data).
Proof.
  intros Hp Hh. unfold run.
  destruct (run_loop_defined (order_depths state) [] _ Hp Hh)
    as (result & ph' & -> & _).
  simpl. eauto.
Qed.

(** C5, as amended.  When every price is within the bound and the
    persisted state is absent, empty, unparseable, or parses to a
    mapping from products to sequences of numbers, the run returns. *)
Theorem run_returns_on_numeric_state state :
  prices_in_range (order_depths state) ->
  history_mapping (load_history json_loads (traderData state)) ->
  exists result data,
    run json_loads json_dumps state = Ok (result, 1, data).
Proof. apply run_defined. Qed.

Lemma load_history_recovers data :
  data = None \/ data = Some EmptyString \/
  (exists s, data = Some s /\ json_loads s = None) ->
  load_history json_loads data = PDict [].
Proof.
  intros [->|[->|(s & -> & Hs)]]; try reflexivity.
  unfold load_history. rewrite Hs. now destruct s.
Qed.

(** C4.  A persisted state that is absent, empty or unparseable is
    recovered from: the history the loop starts from is the empty
    mapping, and the outcome of the run is the outcome on the same
    snapshot with the empty string; when every price is within the bound
    the two runs return, and return the same triple. *)
Theorem malformed_state_recovery state :
  traderData state = None \/ traderData state = Some EmptyString \/
  (exists s, traderData state = Some s /\ json_loads s = None) ->
  load_history json_loads (traderData state) = PDict [] /\
  run json_loads json_dumps state
  = run json_loads json_dumps (with_state state (Some EmptyString)) /\
  (prices_in_range (order_depths state) ->
   exists result data,
     run json_loads json_dumps state = Ok (result, 1, data) /\
     run json_loads json_dumps (with_state state (Some EmptyString))
     = Ok (result, 1, data)).
Proof.
  intros Hbad. apply load_history_recovers in Hbad.
  assert (Heq : run json_loads json_dumps state
                = run json_loads json_dumps
                    (with_state state (Some EmptyString))).
  { unfold run. now rewrite Hbad. }
  split; [assumption|]. split; [assumption|].
  intros Hp. destruct (run_defined state Hp) as (result & data & Hrun).
  - rewrite Hbad. constructor.
  - exists result, data. split; [assumption|]. now rewrite <- Heq.
Qed.

Lemma literal_means old mid :
  List.length old = 6%nat -> Forall (is_value 10) old -> is_value 16 mid ->
  mean (lastn 3 (old ++ [mid])) = Ok (F64.of_Z 12) /\
  mean (lastn 6 (old ++ [mid])) = Ok (F64.of_Z 11) /\
  mean (lastn 3 (removelast (old ++ [mid]))) = Ok (F64.of_Z 10) /\
  mean (lastn 6 (removelast (old ++ [mid]))) = Ok (F64.of_Z 10).
Proof.
  intros Hlen Hold Hmid.
  destruct old as [|v1 [|v2 [|v3 [|v4 [|v5 [|v6 [|]]]]]]]; try discriminate.
  repeat match goal with
         | H : Forall _ (_ :: _) |- _ => inversion H; clear H; subst
         end.
  unfold is_value in *.
  repeat match goal with
         | H : _ \/ _ |- _ => destruct H
         end; subst; repeat split; vm_compute; reflexivity.
Qed.

(** C6.  A product with history [10, 10, 10, 10, 10, 10], each an [int]
    or a [float], a mid-price of 16 this tick and a sell order: its
    orders are exactly one buy of 10 at the smallest sell price. *)
Theorem literal_crossover_fires
  state result conversions data product od mid old :
  NoDup (map fst (order_depths state)) ->
  run json_loads json_dumps state = Ok (result, conversions, data) ->
  In (product, od) (order_depths state) ->
  mid_price od = Ok (Some mid) ->
  history_of (load_history json_loads (traderData state)) product
  = Some old ->
  List.length old = 6%nat ->
  Forall (is_value 10) old ->
  is_value 16 mid ->
  sell_orders od <> [] ->
  exists best_ask,
    is_min_key best_ask (sell_orders od) /\
    dict_get product result = Some [buy_order product best_ask].
Proof.
  intros Hnd Hrun Hin Hmid Hold Hlen Hten Hsixteen Hsell.
  apply run_Ok in Hrun as (ph' & Hloop & _ & _).
  destruct (run_loop_at _ _ _ _ _ _ _ Hloop Hnd Hin)
    as [(Hm & _)|(mid' & old' & orders & Hm & Ho & Hs & Hr & _)];
    [congruence|].
  assert (mid' = mid) by congruence. assert (old' = old) by congruence.
  subst mid' old'.
  rewrite signal_orders_long in Hs by (rewrite length_app, Hlen; simpl; lia).
  destruct (literal_means old mid Hlen Hten Hsixteen)
    as (Es & El & Esp & Elp).
  rewrite Es, El, Esp, Elp in Hs. simpl in Hs.
  change (crossover (F64.of_Z 10) (F64.of_Z 10) (F64.of_Z 12) (F64.of_Z 11))
    with true in Hs.
  rewrite (nonempty_true _ Hsell) in Hs.
  destruct (py_min_keys _ Hsell) as (a & Ea & Hmin).
  rewrite Ea in Hs. cbn [bind] in Hs.
  apply bind_Ok in Hs as ([] & _ & Hs). injection Hs as <-. eauto.
Qed.

End EngineFacts.

(** ** JSON text: writing, then reading *)

Module JsonFacts.

Import Json.
Open Scope string_scope.

(** *** Strings *)

Lemma append_assoc (a b c : string) : (a ++ b) ++ c = a ++ (b ++ c).
Proof. induction a as [|x a IH]; simpl; congruence. Qed.

Lemma length_append (a b : string) :
  String.length (a ++ b) = (String.length a + String.length b)%nat.
Proof. induction a as [|x a IH]; simpl; congruence. Qed.

Lemma scan_string_escape_char (c : ascii) (tail : string) :
  scan_string (escape_char c ++ tail)
  = match scan_string tail with
    | Some (t, r) => Some (String c t, r)
    | None => None
    end.
Proof.
  destruct c as [[|] [|] [|] [|] [|] [|] [|] [|]]; reflexivity.
Qed.

Lemma scan_string_escape (s rest : string) :
  scan_string (escape s ++ String dquote rest) = Some (s, rest).
Proof.
  induction s as [|c s IH]; simpl.
  - reflexivity.
  - now rewrite append_assoc, scan_string_escape_char, IH.
Qed.

(** *** Number tokens *)

Lemma delimited_cases rest :
  delimited rest = true ->
  rest = EmptyString \/
  exists c r, rest = String c r /\ is_digit c = false /\
    Ascii.eqb c "." = false /\ Ascii.eqb c "e" = false /\
    Ascii.eqb c "E" = false /\ Ascii.eqb c "+" = false /\
    Ascii.eqb c "-" = false.
Proof.
  destruct rest as [|c r]; [auto|]. simpl. intros H. right. exists c, r.
  apply negb_true_iff in H. repeat (apply orb_false_iff in H as [H ?]).
  auto 10.
Qed.

Lemma span_digits_app s rest d r :
  span_digits s = (d, r) -> delimited rest = true ->
  span_digits (s ++ rest) = (d, r ++ rest).
Proof.
  intros Hs Hrest. revert d r Hs.
  induction s as [|c s IH]; simpl; intros d r Hs.
  - injection Hs as <- <-. simpl.
    apply delimited_cases in Hrest as [->|(c & r & -> & Hd & _)];
      [reflexivity|]. simpl. now rewrite Hd.
  - destruct (is_digit c).
    + destruct (span_digits s) as [d0 r0]. injection Hs as <- <-.
      now rewrite (IH d0 r0 eq_refl).
    + now injection Hs as <- <-.
Qed.

Lemma scan_int_part_app s rest i r :
  scan_int_part s = Some (i, r) -> delimited rest = true ->
  scan_int_part (s ++ rest) = Some (i, r ++ rest).
Proof.
  intros Hs Hrest. destruct s as [|c s]; simpl in *; [discriminate|].
  destruct (Ascii.eqb c "0"); [now injection Hs as <- <-|].
  destruct (is_digit c); [|discriminate].
  destruct (span_digits s) as [d0 r0] eqn:E. injection Hs as <- <-.
  now rewrite (span_digits_app _ _ _ _ E Hrest).
Qed.

Lemma scan_frac_app s rest f r :
  scan_frac s = (f, r) -> delimited rest = true ->
  scan_frac (s ++ rest) = (f, r ++ rest).
Proof.
  intros Hs Hrest. destruct s as [|c s]; simpl in *.
  - injection Hs as <- <-.
    apply delimited_cases in Hrest as [->|(c & r & -> & _ & Hd & _)];
      [reflexivity|]. simpl. now rewrite Hd.
  - destruct (Ascii.eqb c "."); [|now injection Hs as <- <-].
    destruct (span_digits s) as [d0 r0] eqn:E.
    rewrite (span_digits_app _ _ _ _ E Hrest).
    destruct (is_empty d0); now injection Hs as <- <-.
Qed.

Lemma scan_exp_app s rest e r :
  scan_exp s = (e, r) -> delimited rest = true ->
  scan_exp (s ++ rest) = (e, r ++ rest).
Proof.
  intros Hs Hrest. destruct s as [|c s]; simpl in *.
  - injection Hs as <- <-.
    apply delimited_cases in Hrest
      as [->|(c & r & -> & _ & _ & He1 & He2 & _)]; [reflexivity|].
    simpl. now rewrite He1, He2.
  - destruct (Ascii.eqb c "e" || Ascii.eqb c "E");
      [|now injection Hs as <- <-].
    destruct s as [|c' t]; simpl in *.
    + injection Hs as <- <-.
      apply delimited_cases in Hrest
        as [->|(c1 & r1 & -> & Hd & _ & _ & _ & Hp & Hm)]; [reflexivity|].
      simpl. rewrite Hp, Hm. simpl. now rewrite Hd.
    + destruct (Ascii.eqb c' "+" || Ascii.eqb c' "-").
      * destruct (span_digits t) as [d0 r0] eqn:E.
        rewrite (span_digits_app _ _ _ _ E Hrest).
        destruct (is_empty d0); now injection Hs as <- <-.
      * change (String c' (t ++ rest)) with (String c' t ++ rest).
        destruct (span_digits (String c' t)) as [d0 r0] eqn:E.
        rewrite (span_digits_app _ _ _ _ E Hrest).
        destruct (is_empty d0); now injection Hs as <- <-.
Qed.

Section CodecFacts.

Variable float_repr : spec_float -> string.
Variable read_float : string -> spec_float.

Abbreviation scan_number := (Json.scan_number read_float).
Abbreviation scan_atom := (Json.scan_atom read_float).
Abbreviation scan_value := (Json.scan_value read_float).
Abbreviation scan_elems := (Json.scan_elems read_float).
Abbreviation scan_members := (Json.scan_members read_float).
Abbreviation loads := (Json.loads read_float).
Abbreviation dumps := (Json.dumps float_repr).
Abbreviation json_number := (Json.json_number float_repr read_float).
Abbreviation json_history := (Json.json_history float_repr read_float).
Abbreviation sequences := (Json.sequences float_repr read_float).
Abbreviation member_text := (Json.member_text float_repr).

Lemma scan_number_app s rest v r :
  scan_number s = Some (v, r) -> delimited rest = true ->
  scan_number (s ++ rest) = Some (v, r ++ rest).
Proof.
  unfold Json.scan_number. intros Hs Hrest.
  destruct s as [|c s]; [discriminate|].
  assert (Hsign : scan_sign (String c s ++ rest)
                  = (fst (scan_sign (String c s)),
                     snd (scan_sign (String c s)) ++ rest)).
  { simpl. now destruct (Ascii.eqb c "-"). }
  rewrite Hsign. destruct (scan_sign (String c s)) as [sg s1].
  simpl fst. simpl snd.
  destruct (scan_int_part s1) as [[i s2]|] eqn:Ei; [|discriminate].
  rewrite (scan_int_part_app _ _ _ _ Ei Hrest).
  destruct (scan_frac s2) as [f s3] eqn:Ef.
  rewrite (scan_frac_app _ _ _ _ Ef Hrest).
  destruct (scan_exp s3) as [e s4] eqn:Ee.
  rewrite (scan_exp_app _ _ _ _ Ee Hrest).
  destruct (is_empty f && is_empty e).
  - destruct (NilZero.int_of_string (sg ++ i)); [|discriminate].
    now injection Hs as <- <-.
  - now injection Hs as <- <-.
Qed.

(** **** Integers *)

Lemma span_digits_uint (d : Decimal.uint) :
  span_digits (NilEmpty.string_of_uint d)
  = (NilEmpty.string_of_uint d, EmptyString).
Proof. induction d; simpl; rewrite ?IHd; reflexivity. Qed.

Lemma to_uint_leading (p : positive) :
  exists c s,
    NilZero.string_of_uint (Pos.to_uint p) = String c s /\
    NilEmpty.string_of_uint (Pos.to_uint p) = String c s /\
    is_digit c = true /\ Ascii.eqb c "0" = false /\
    Ascii.eqb c "-" = false /\
    span_digits s = (s, EmptyString).
Proof.
  pose proof (Unsigned.to_uint_nonzero p) as Hz.
  assert (Hn : Pos.to_uint p = Decimal.unorm (Pos.to_uint p)).
  { pose proof (Unsigned.to_of (Pos.to_uint p)) as H.
    rewrite Unsigned.of_to in H. exact H. }
  unfold Decimal.unorm in Hn.
  pose proof (nzhead_nonzero (Pos.to_uint p)) as Hh.
  destruct (Pos.to_uint p) as [|d|d|d|d|d|d|d|d|d|d] eqn:E.
  - now apply Unsigned.to_uint_nonnil in E.
  - exfalso.
    destruct (Decimal.nzhead (Decimal.D0 d)) eqn:En;
      try discriminate.
    + injection Hn as ->. now apply Hz.
    + now apply (Hh u).
  - do 2 eexists. repeat split. apply span_digits_uint.
  - do 2 eexists. repeat split. apply span_digits_uint.
  - do 2 eexists. repeat split. apply span_digits_uint.
  - do 2 eexists. repeat split. apply span_digits_uint.
  - do 2 eexists. repeat split. apply span_digits_uint.
  - do 2 eexists. repeat split. apply span_digits_uint.
  - do 2 eexists. repeat split. apply span_digits_uint.
  - do 2 eexists. repeat split. apply span_digits_uint.
  - do 2 eexists. repeat split. apply span_digits_uint.
Qed.

Lemma scan_number_int (z : Z) :
  scan_number (int_repr z) = Some (PInt z, EmptyString).
Proof.
  destruct z as [|p|p].
  - reflexivity.
  - unfold int_repr. simpl Z.to_int. unfold NilZero.string_of_int.
    destruct (to_uint_leading p) as (c & s & E & E' & Hd & H0 & Hm & Hs).
    pose proof (NilZero.usu (Pos.to_uint p) (Unsigned.to_uint_nonnil p))
      as Hu.
    rewrite E in *. unfold Json.scan_number. simpl. rewrite Hm. simpl.
    rewrite H0, Hd, Hs. simpl. rewrite Hm.
    change (uint_of_char c (NilEmpty.uint_of_string s))
      with (NilZero.uint_of_string (String c s)).
    rewrite Hu. simpl option_map. cbv iota.
    change (Decimal.Pos (Pos.to_uint p)) with (Z.to_int (Z.pos p)).
    now rewrite DecimalZ.of_to.
  - unfold int_repr. simpl Z.to_int. unfold NilZero.string_of_int.
    destruct (to_uint_leading p) as (c & s & E & E' & Hd & H0 & Hm & Hs).
    pose proof (NilZero.usu (Pos.to_uint p) (Unsigned.to_uint_nonnil p))
      as Hu.
    rewrite E in *. unfold Json.scan_number. simpl.
    rewrite H0, Hd, Hs. simpl.
    change (uint_of_char c (NilEmpty.uint_of_string s))
      with (NilZero.uint_of_string (String c s)).
    rewrite Hu. simpl option_map. cbv iota.
    change (Decimal.Neg (Pos.to_uint p)) with (Z.to_int (Z.neg p)).
    now rewrite DecimalZ.of_to.
Qed.

(** **** Numbers as values *)

Lemma number_start_facts c :
  number_start c ->
  is_ws c = false /\ Ascii.eqb c dquote = false /\
  Ascii.eqb c "{" = false /\ Ascii.eqb c "[" = false /\
  Ascii.eqb c "]" = false /\ Ascii.eqb "n" c = false /\
  Ascii.eqb "t" c = false /\ Ascii.eqb "f" c = false.
Proof.
  unfold number_start.
  destruct c as [[|] [|] [|] [|] [|] [|] [|] [|]];
    intros [H|[H|[H|H]]]; try discriminate H;
    repeat split; reflexivity.
Qed.

Lemma scan_number_start s x :
  scan_number s = Some x ->
  exists c s', s = String c s' /\ (is_digit c = true \/ c = "-"%char).
Proof.
  unfold Json.scan_number. destruct s as [|c s']; [discriminate|].
  intros H. exists c, s'. split; [reflexivity|]. simpl in H.
  destruct (Ascii.eqb_spec c "-"); [auto|]. left. simpl in H.
  destruct (Ascii.eqb_spec c "0"); [now subst|].
  destruct (is_digit c); [reflexivity|discriminate].
Qed.

Lemma strip_prefix_first a p c s :
  Ascii.eqb a c = false -> strip_prefix (String a p) (String c s) = None.
Proof. intros H. cbn [strip_prefix]. now rewrite H. Qed.

Lemma scan_atom_number s x : scan_number s = Some x -> scan_atom s = Some x.
Proof.
  intros H. destruct (scan_number_start s x H) as (c & s' & -> & Hc).
  assert (Hs : number_start c) by (unfold number_start; tauto).
  apply number_start_facts in Hs as (_ & _ & _ & _ & _ & Hn & Ht & Hf).
  unfold Json.scan_atom.
  rewrite !strip_prefix_first by assumption. now rewrite H.
Qed.

Lemma scan_value_atom n c s :
  number_start c ->
  scan_value (S n) (String c s) = scan_atom (String c s).
Proof.
  intros Hs.
  apply number_start_facts in Hs as (_ & Hq & Hb & Hk & _).
  cbn [Json.scan_value]. now rewrite Hq, Hb, Hk.
Qed.

Lemma dumps_number_start v rest :
  json_number v ->
  exists c s', dumps v ++ rest = String c s' /\ number_start c.
Proof.
  unfold number_start.
  destruct v as [| |z|f| | |]; try contradiction; intros Hv.
  - destruct (scan_number_start _ _ (scan_number_int z))
      as (c & s' & E & Hc).
    simpl. rewrite E. exists c, (s' ++ rest). split; [reflexivity|tauto].
  - destruct f as [s|[|]| |s m e]; simpl in *.
    + destruct (scan_number_start _ _ Hv) as (c & s' & E & Hc).
      rewrite E. exists c, (s' ++ rest). split; [reflexivity|tauto].
    + do 2 eexists. split; [reflexivity|auto].
    + do 2 eexists. split; [reflexivity|auto].
    + do 2 eexists. split; [reflexivity|auto].
    + destruct (scan_number_start _ _ Hv) as (c & s' & E & Hc).
      rewrite E. exists c, (s' ++ rest). split; [reflexivity|tauto].
Qed.

Lemma scan_value_number v rest n :
  json_number v -> delimited rest = true ->
  scan_value (S n) (dumps v ++ rest) = Some (v, rest).
Proof.
  intros Hv Hrest.
  assert (Hnum : forall t,
             scan_number t = Some (v, EmptyString) ->
             scan_value (S n) (t ++ rest) = Some (v, rest)).
  { intros t Ht.
    pose proof (scan_number_app _ _ _ _ Ht Hrest) as Happ.
    destruct (scan_number_start _ _ Happ) as (c & s' & E & Hc).
    rewrite E in *. rewrite scan_value_atom
      by (unfold number_start; tauto).
    now apply scan_atom_number. }
  destruct v as [| |z|f| | |]; try contradiction.
  - apply Hnum, scan_number_int.
  - destruct f as [s|[|]| |s m e]; simpl in Hv.
    + now apply Hnum.
    + reflexivity.
    + reflexivity.
    + reflexivity.
    + now apply Hnum.
Qed.

Lemma skip_ws_start c s : is_ws c = false -> skip_ws (String c s) = String c s.
Proof. intros H. simpl. now rewrite H. Qed.

(** **** Sequences of numbers *)

Lemma join_cons (sep x : string) (l : list string) :
  l <> [] -> join sep (x :: l) = x ++ sep ++ join sep l.
Proof. destruct l; [congruence|reflexivity]. Qed.

Lemma scan_elems_join l : forall x n rest,
  Forall json_number (x :: l) ->
  (List.length (x :: l) < n)%nat ->
  scan_elems n (join ", " (map dumps (x :: l)) ++ String "]" rest)
  = Some (x :: l, rest).
Proof.
  induction l as [|y l IH]; intros x n rest Hl Hn;
    inversion Hl as [|? ? Hx Hl']; subst;
    destruct n as [|[|n]]; simpl List.length in Hn; try lia.
  - simpl map. simpl join.
    change (scan_elems (S (S n)) (dumps x ++ String "]" rest))
      with (match scan_value (S n) (dumps x ++ String "]" rest) with
            | None => None
            | Some (v, r) =>
                match skip_ws r with
                | EmptyString => None
                | String c r' =>
                    if Ascii.eqb c "]" then Some ([v], r')
                    else if Ascii.eqb c "," then
                      match scan_elems (S n) (skip_ws r') with
                      | Some (l, r'') => Some (v :: l, r'')
                      | None => None
                      end
                    else None
                end
            end).
    now rewrite scan_value_number.
  - simpl map. rewrite join_cons by discriminate.
    rewrite !append_assoc.
    change (", " ++ join ", " (dumps y :: map dumps l) ++ String "]" rest)
      with (String "," (String " "
              (join ", " (map dumps (y :: l)) ++ String "]" rest))).
    set (tail := join ", " (map dumps (y :: l)) ++ String "]" rest).
    change (scan_elems (S (S n)) (dumps x ++ String "," (String " " tail)))
      with (match scan_value (S n)
                    (dumps x ++ String "," (String " " tail)) with
            | None => None
            | Some (v, r) =>
                match skip_ws r with
                | EmptyString => None
                | String c r' =>
                    if Ascii.eqb c "]" then Some ([v], r')
                    else if Ascii.eqb c "," then
                      match scan_elems (S n) (skip_ws r') with
                      | Some (l, r'') => Some (v :: l, r'')
                      | None => None
                      end
                    else None
                end
            end).
    rewrite scan_value_number by auto.
    change (skip_ws (String "," (String " " tail)))
      with (String "," (String " " tail)).
    cbv iota. change (Ascii.eqb "," "]") with false.
    change (Ascii.eqb "," ",") with true. cbv iota.
    change (skip_ws (String " " tail)) with (skip_ws tail).
    assert (Ht : skip_ws tail = tail).
    { subst tail. simpl map.
      destruct l as [|z l].
      - simpl join.
        destruct (dumps_number_start y (String "]" rest))
          as (c & s' & -> & Hc); [now inversion Hl'|].
        apply skip_ws_start. now apply number_start_facts.
      - rewrite join_cons by discriminate. rewrite append_assoc.
        destruct (dumps_number_start y
                    ((", " ++ join ", " (map dumps (z :: l)))
                       ++ String "]" rest))
          as (c & s' & -> & Hc); [now inversion Hl'|].
        apply skip_ws_start. now apply number_start_facts. }
    rewrite Ht. unfold tail. rewrite IH; [reflexivity|assumption|].
    simpl List.length. lia.
Qed.

Lemma scan_value_list l n rest :
  Forall json_number l ->
  (List.length l < n)%nat ->
  scan_value (S n) (dumps (PList l) ++ rest) = Some (PList l, rest).
Proof.
  intros Hl Hn. cbn [Json.dumps].
  change (("[" ++ join ", " (map dumps l) ++ "]") ++ rest)
    with (String "[" ((join ", " (map dumps l) ++ "]") ++ rest)).
  rewrite append_assoc.
  change ("]" ++ rest) with (String "]" rest).
  cbn [Json.scan_value].
  change (Ascii.eqb "[" dquote) with false.
  change (Ascii.eqb "[" "{") with false.
  change (Ascii.eqb "[" "[") with true. cbv iota.
  destruct l as [|x l].
  - reflexivity.
  - assert (Hstart : exists c s',
               join ", " (map dumps (x :: l)) ++ String "]" rest
               = String c s' /\ number_start c).
    { inversion Hl; subst. simpl map. destruct l as [|y l].
      - now apply dumps_number_start.
      - rewrite join_cons by discriminate. rewrite append_assoc.
        now apply dumps_number_start. }
    destruct Hstart as (c & s' & E & Hc).
    pose proof (scan_elems_join l x n rest Hl Hn) as He.
    rewrite E in *.
    apply number_start_facts in Hc as (Hw & _ & _ & _ & Hk & _).
    rewrite skip_ws_start by assumption. rewrite Hk.
    fold (Json.scan_elems read_float). now rewrite He.
Qed.

(** **** Mappings *)

Lemma scan_members_join d : forall kv n rest,
  sequences (kv :: d) ->
  (members_fuel (kv :: d) <= n)%nat ->
  exists body,
    join ", " (map member_text (kv :: d)) ++ String "}" rest
    = String dquote body /\
    scan_members n body = Some (kv :: d, rest).
Proof.
  induction d as [|kv' d IH]; intros [k v] n rest Hd Hn;
    inversion Hd as [|? ? Hv Hd']; subst; simpl in Hv;
    destruct v as [| | | | |l|]; try contradiction;
    destruct n as [|n]; simpl members_fuel in Hn; try lia.
  - simpl map. simpl join. unfold member_text, quote. simpl fst. simpl snd.
    eexists. split.
    + rewrite ?append_assoc. cbn [append]. rewrite ?append_assoc.
      cbn [append]. reflexivity.
    + cbn [Json.scan_members]. rewrite scan_string_escape.
      change (skip_ws (String ":" ?x)) with (String ":" x).
      cbv iota. change (Ascii.eqb ":" ":") with true. cbv iota.
      change (skip_ws (String " " (String "[" ?x)))
        with (String " " (String "[" x)).
      fold (Json.scan_value read_float).
      change (skip_ws (String " " (dumps (PList l) ++ String "}" rest)))
        with (dumps (PList l) ++ String "}" rest).
      destruct n as [|n]; [lia|].
      rewrite scan_value_list by (auto; lia).
      reflexivity.
  - destruct (IH kv' n rest Hd') as (body & Ebody & Hbody).
    { simpl members_fuel in *. lia. }
    simpl map. rewrite join_cons by discriminate.
    simpl map in Ebody.
    unfold member_text at 1, quote. simpl fst. simpl snd.
    eexists. split.
    + rewrite ?append_assoc. cbn [append]. rewrite ?append_assoc.
      cbn [append]. rewrite ?append_assoc. cbn [append].
      rewrite Ebody. reflexivity.
    + cbn [Json.scan_members]. rewrite scan_string_escape.
      change (skip_ws (String ":" ?x)) with (String ":" x).
      cbv iota. change (Ascii.eqb ":" ":") with true. cbv iota.
      fold (Json.scan_value read_float).
      change (skip_ws (String " " (dumps (PList l)
                ++ String "," (String " " (String dquote body)))))
        with (dumps (PList l)
                ++ String "," (String " " (String dquote body))).
      destruct n as [|n]; [lia|].
      rewrite scan_value_list by (auto; lia).
      change (skip_ws (String "," ?x)) with (String "," x).
      cbv iota. change (Ascii.eqb "," "}") with false.
      change (Ascii.eqb "," ",") with true. cbv iota.
      change (skip_ws (String " " (String dquote body)))
        with (String dquote body).
      cbv iota. change (Ascii.eqb dquote dquote) with true. cbv iota.
      fold (Json.scan_members read_float). now rewrite Hbody.
Qed.

Lemma dict_set_fresh (k : string) (v : pyval) (d : list (string * pyval)) :
  ~ In k (map fst d) -> dict_set k v d = (d ++ [(k, v)])%list.
Proof.
  induction d as [|[k' v'] d IH]; simpl; intros Hk; [reflexivity|].
  destruct (String.eqb_spec k k') as [->|_]; [tauto|].
  rewrite IH by tauto. reflexivity.
Qed.

Lemma dict_of_pairs_distinct (m : list (string * pyval)) :
  NoDup (map fst m) -> dict_of_pairs m = m.
Proof.
  unfold dict_of_pairs.
  assert (H : forall acc,
             NoDup (map fst (acc ++ m)%list) ->
             fold_left (fun d kv => dict_set (fst kv) (snd kv) d) m acc
             = (acc ++ m)%list).
  { induction m as [|[k v] m IH]; intros acc Hnd; simpl.
    - now rewrite List.app_nil_r.
    - rewrite dict_set_fresh.
      + rewrite IH; rewrite <- List.app_assoc; [reflexivity|assumption].
      + rewrite map_app in Hnd. simpl in Hnd.
        apply NoDup_remove_2 in Hnd. intros Hin. apply Hnd.
        apply in_or_app. now left. }
  intros Hnd. now apply (H []).
Qed.

(** **** Fuel *)

Lemma length_join_numbers l :
  Forall json_number l ->
  (List.length l <= String.length (join ", " (map dumps l)))%nat.
Proof.
  induction l as [|x l IH]; intros Hl; [simpl; lia|].
  inversion Hl as [|? ? Hx Hl']; subst. specialize (IH Hl').
  destruct (dumps_number_start x EmptyString Hx) as (c & s' & E & _).
  assert (Hlen : (1 <= String.length (dumps x))%nat).
  { apply (f_equal String.length) in E. rewrite length_append in E.
    simpl in E. lia. }
  simpl map. destruct l as [|y l].
  - simpl. lia.
  - rewrite join_cons by discriminate. rewrite !length_append.
    simpl in *. lia.
Qed.

Lemma length_member k l :
  Forall json_number l ->
  (List.length l + 6 <= String.length (member_text (k, PList l)))%nat.
Proof.
  intros Hl. apply length_join_numbers in Hl.
  unfold member_text, quote. cbn [fst snd Json.dumps].
  rewrite !length_append. simpl String.length. rewrite !length_append.
  simpl String.length. lia.
Qed.

Lemma members_fuel_length d :
  sequences d ->
  (members_fuel d <= String.length (join ", " (map member_text d)))%nat.
Proof.
  induction d as [|[k v] d IH]; intros Hd; [simpl; lia|].
  inversion Hd as [|? ? Hv Hd']; subst. specialize (IH Hd').
  simpl in Hv. destruct v as [| | | | |l|]; try contradiction.
  pose proof (length_member k l Hv) as Hm.
  change (members_fuel ((k, PList l) :: d))
    with (S (Nat.max (List.length l + 2) (members_fuel d))).
  cbn [map]. destruct d as [|kv d].
  - cbn [map join members_fuel]. lia.
  - rewrite join_cons by discriminate. rewrite !length_append.
    change (String.length ", ") with 2%nat. lia.
Qed.

(** **** Whole texts *)

Lemma scan_value_history d n rest :
  NoDup (map fst d) -> sequences d ->
  (members_fuel d <= n)%nat ->
  scan_value (S n) (dumps (PDict d) ++ rest) = Some (PDict d, rest).
Proof.
  intros Hnd Hd Hn. cbn [Json.dumps].
  fold (member_text). fold (map member_text d).
  change (("{" ++ join ", " (map member_text d) ++ "}") ++ rest)
    with (String "{" ((join ", " (map member_text d) ++ "}") ++ rest)).
  rewrite append_assoc. change ("}" ++ rest) with (String "}" rest).
  cbn [Json.scan_value].
  change (Ascii.eqb "{" dquote) with false.
  change (Ascii.eqb "{" "{") with true. cbv iota.
  destruct d as [|kv d].
  - reflexivity.
  - destruct (scan_members_join d kv n rest Hd Hn) as (body & -> & Hb).
    change (skip_ws (String dquote body)) with (String dquote body).
    cbv iota. change (Ascii.eqb dquote "}") with false.
    change (Ascii.eqb dquote dquote) with true. cbv iota.
    fold (Json.scan_members read_float). rewrite Hb.
    now rewrite dict_of_pairs_distinct.
Qed.

Lemma append_nil_r (s : string) : s ++ EmptyString = s.
Proof. induction s as [|c s IH]; simpl; congruence. Qed.

(** C9.  A history mapping, that is distinct products each with a
    sequence of integers and floats, where the text of every finite
    float reads back as that float: reading what [json.dumps] writes
    gives the mapping back, with its products and their values in the
    same order. *)
Theorem history_round_trip (h : pyval) :
  json_history h -> loads (dumps h) = Some h.
Proof.
  destruct h as [| | | | | |d]; try contradiction. intros [Hnd Hd].
  unfold Json.loads.
  assert (Hstart : skip_ws (dumps (PDict d)) = dumps (PDict d))
    by reflexivity.
  rewrite Hstart.
  rewrite <- (append_nil_r (dumps (PDict d))) at 2.
  rewrite scan_value_history; try assumption.
  - reflexivity.
  - pose proof (members_fuel_length d Hd) as Hf.
    cbn [Json.dumps]. fold member_text. fold (map member_text d).
    rewrite !length_append. simpl String.length. lia.
Qed.

End CodecFacts.

End JsonFacts.

(** ** The claims on sample ticks *)

Module SampleFacts.

Open Scope string_scope.

Lemma distinct_one {A : Type} (k : string) (a : A) : NoDup (map fst [(k, a)]).
Proof. constructor; [intros []|constructor]. Defined.

Lemma distinct_kelp_resin {A : Type} (a b : A) :
  NoDup (map fst [("KELP", a); ("RESIN", b)]).
Proof.
  constructor; [|apply (distinct_one "RESIN" b)].
  intros [E|[]]. discriminate E.
Defined.

Lemma small_sample (z : Z) : (Z.abs z <=? 1000)%Z = true -> small_int z.
Proof.
  intros H. apply Z.leb_le in H. unfold small_int.
  apply Z.le_trans with (1 := H). vm_compute. discriminate.
Defined.

(** The runs of the sample ticks, in full. *)
Example crossover_run :
  run ref_loads ref_dumps Sample.crossover_state
  = Ok (Sample.crossover_result, 1, Sample.crossover_data).
Proof. vm_compute. reflexivity. Qed.

Example no_asks_run :
  run ref_loads ref_dumps Sample.no_asks_state
  = Ok ([("KELP", [])], 1, Sample.no_asks_data).
Proof. vm_compute. reflexivity. Qed.

Example first_run :
  run ref_loads ref_dumps Sample.first_state
  = Ok ([("KELP", [])], 1, Sample.first_data).
Proof. vm_compute. reflexivity. Qed.

Example malformed_run :
  run ref_loads ref_dumps Sample.malformed_state
  = Ok ([("KELP", [])], 1, Sample.first_data).
Proof. vm_compute. reflexivity. Qed.

(** The mid-prices of the books of the spec's examples: 11.0 for bids at
    10 and 9 with asks at 12 and 13, the best price of a one-sided book,
    none for an empty book. *)
Example mid_price_both_sides :
  mid_price {| buy_orders := [(10, 5); (9, 3)];
               sell_orders := [(12, 4); (13, 1)] |}
  = Ok (Some (PFloat (F64.of_Z 11))).
Proof. vm_compute. reflexivity. Qed.

Example mid_price_bids_only :
  mid_price {| buy_orders := [(10, 5)]; sell_orders := [] |}
  = Ok (Some (PInt 10)).
Proof. reflexivity. Qed.

Example mid_price_asks_only :
  mid_price {| buy_orders := []; sell_orders := [(12, 4)] |}
  = Ok (Some (PInt 12)).
Proof. reflexivity. Qed.

Example mid_price_empty_book : mid_price Sample.empty_book = Ok None.
Proof. reflexivity. Qed.

(** A state whose entry for a product is not a list: the run raises at
    that product and the other product gets no result. *)
Example scalar_entry_raises :
  run ref_loads ref_dumps
    {| traderData := Some (ref_dumps (PDict [("KELP", PInt 5)]));
       order_depths := [("KELP", Sample.kelp_book);
                        ("RESIN", Sample.bids_only)] |}
  = Raise AttributeError.
Proof. vm_compute. reflexivity. Qed.

(** C1 on the literal scenario. *)
Lemma buy_signal_iff_crossover_witness :
  exists best_ask,
    is_min_key best_ask (sell_orders Sample.kelp_book) /\
    dict_get "KELP" Sample.crossover_result
    = Some [buy_order "KELP" best_ask].
Proof.
  destruct (buy_signal_iff_crossover ref_loads ref_dumps
              Sample.crossover_state Sample.crossover_result 1
              Sample.crossover_data "KELP" Sample.kelp_book
              (PFloat Sample.sixteen) Sample.six_tens)
    as (s & l & sp & lp & Es & El & Esp & Elp & Hfire & _).
  - apply distinct_one.
  - vm_compute. reflexivity.
  - left. reflexivity.
  - vm_compute. reflexivity.
  - vm_compute. reflexivity.
  - simpl. lia.
  - vm_compute in Es, El, Esp, Elp.
    injection Es as <-. injection El as <-.
    injection Esp as <-. injection Elp as <-.
    apply Hfire; [reflexivity|reflexivity|discriminate].
Defined.

(** C2 on a book with both sides. *)
Lemma mid_price_derivation_witness :
  exists best_bid best_ask,
    is_max_key best_bid (buy_orders Sample.kelp_book) /\
    is_min_key best_ask (sell_orders Sample.kelp_book) /\
    mid_price Sample.kelp_book =
    (m <- py_truediv (PInt (best_bid + best_ask)) (PFloat F64.two) ;;
     Ok (Some (PFloat m))) /\
    (Z.abs (best_bid + best_ask) < 2 ^ 53 ->
     exists m,
       mid_price Sample.kelp_book = Ok (Some (PFloat m)) /\
       F64.value_is m (best_bid + best_ask) 2).
Proof.
  apply (proj1 (mid_price_derivation ref_loads ref_dumps Sample.kelp_book));
    discriminate.
Defined.

(** The tick of the three recorded products, in full. *)
Example three_run :
  run ref_loads ref_dumps Sample.three_state
  = Ok (Sample.crossover_result, 1, Sample.three_data).
Proof. vm_compute. reflexivity. Qed.


(** C4 on a state that is not JSON. *)
Lemma malformed_state_recovery_witness :
  load_history ref_loads (traderData Sample.malformed_state) = PDict [] /\
  run ref_loads ref_dumps Sample.malformed_state
  = run ref_loads ref_dumps
      (with_state Sample.malformed_state (Some EmptyString)) /\
  exists result data,
    run ref_loads ref_dumps Sample.malformed_state
    = Ok (result, 1, data) /\
    run ref_loads ref_dumps
      (with_state Sample.malformed_state (Some EmptyString))
    = Ok (result, 1, data).
Proof.
  destruct (malformed_state_recovery ref_loads ref_dumps
              Sample.malformed_state) as (Hload & Hsame & Hreturns).
  - right. right. exists "{". split; [reflexivity|].
    vm_compute. reflexivity.
  - split; [exact Hload|]. split; [exact Hsame|].
    apply Hreturns.
    repeat constructor; apply small_sample; reflexivity.
Defined.

(** Beyond the range of a double line 34 raises, on an unparseable state
    as on the empty one. *)
Example huge_prices_raise :
  run ref_loads ref_dumps Sample.malformed_huge_state = Raise OverflowError /\
  run ref_loads ref_dumps
    (with_state Sample.malformed_huge_state (Some EmptyString))
  = Raise OverflowError.
Proof. split; vm_compute; reflexivity. Qed.

(** C5 on the literal scenario. *)
Lemma run_returns_on_numeric_state_witness :
  exists result data,
    run ref_loads ref_dumps Sample.crossover_state = Ok (result, 1, data).
Proof.
  apply (run_returns_on_numeric_state ref_loads ref_dumps
           Sample.crossover_state).
  - repeat constructor; apply small_sample; reflexivity.
  - change (load_history ref_loads (traderData Sample.crossover_state))
      with (load_history ref_loads (Some (ref_dumps Sample.flat_history))).
    replace (load_history ref_loads (Some (ref_dumps Sample.flat_history)))
      with Sample.flat_history by (vm_compute; reflexivity).
    repeat constructor; apply small_sample; reflexivity.
Defined.

(** C5 as stated fails: the state is JSON, and the run raises. *)
Lemma array_state_raises :
  ref_loads "[]" = Some (PList []) /\
  run ref_loads ref_dumps Sample.array_state = Raise TypeError.
Proof. split; vm_compute; reflexivity. Qed.

(** C6 on the literal scenario. *)
Lemma literal_crossover_fires_witness :
  exists best_ask,
    is_min_key best_ask (sell_orders Sample.kelp_book) /\
    dict_get "KELP" Sample.crossover_result
    = Some [buy_order "KELP" best_ask].
Proof.
  apply (literal_crossover_fires ref_loads ref_dumps
           Sample.crossover_state Sample.crossover_result 1
           Sample.crossover_data "KELP" Sample.kelp_book
           (PFloat Sample.sixteen) Sample.six_tens).
  - apply distinct_one.
  - vm_compute. reflexivity.
  - left. reflexivity.
  - vm_compute. reflexivity.
  - vm_compute. reflexivity.
  - reflexivity.
  - repeat constructor; left; reflexivity.
  - right. reflexivity.
  - discriminate.
Defined.

(** C7 on a first tick. *)
Lemma no_order_below_seven_witness :
  dict_get "KELP" [("KELP", @nil Order)] = Some [] /\
  exists ph',
    Sample.first_data = ref_dumps ph' /\
    history_of ph' "KELP" = Some ([] ++ [PFloat Sample.sixteen])%list.
Proof.
  apply (no_order_below_seven ref_loads ref_dumps Sample.first_state
           [("KELP", [])] 1 Sample.first_data "KELP" Sample.kelp_book
           (PFloat Sample.sixteen) []).
  - apply distinct_kelp_resin.
  - vm_compute. reflexivity.
  - left. reflexivity.
  - vm_compute. reflexivity.
  - vm_compute. reflexivity.
  - simpl. lia.
Defined.

(** C8 on the literal history with bids only. *)
Lemma no_order_without_sell_orders_witness :
  dict_get "KELP" [("KELP", @nil Order)] = Some [].
Proof.
  apply (no_order_without_sell_orders ref_loads ref_dumps
           Sample.no_asks_state [("KELP", [])] 1 Sample.no_asks_data
           "KELP" Sample.bids_only (PInt 16) Sample.six_tens
           (F64.of_Z 12) (F64.of_Z 11) (F64.of_Z 10) (F64.of_Z 10)).
  - apply distinct_one.
  - vm_compute. reflexivity.
  - left. reflexivity.
  - vm_compute. reflexivity.
  - vm_compute. reflexivity.
  - simpl. lia.
  - vm_compute. reflexivity.
  - vm_compute. reflexivity.
  - vm_compute. reflexivity.
  - vm_compute. reflexivity.
  - vm_compute. reflexivity.
  - vm_compute. reflexivity.
  - reflexivity.
Defined.

(** C9 on a mapping with integers, halves and an empty sequence. *)
Lemma history_round_trip_witness :
  ref_loads
    (ref_dumps
       (PDict [("KELP", PList [PInt 10; PFloat Sample.sixteen; PInt (-3);
                               PFloat (F64.div (F64.of_Z 23) F64.two)]);
               ("RESIN", PList [])]))
  = Some
      (PDict [("KELP", PList [PInt 10; PFloat Sample.sixteen; PInt (-3);
                              PFloat (F64.div (F64.of_Z 23) F64.two)]);
              ("RESIN", PList [])]).
Proof.
  apply (JsonFacts.history_round_trip FloatText.exact_repr
           FloatText.round_read).
  split.
  - apply distinct_kelp_resin.
  - repeat constructor; vm_compute; reflexivity.
Defined.

(** C10 on the literal scenario. *)
Lemma conversions_is_one_witness : 1 = 1.
Proof.
  apply (conversions_is_one ref_loads ref_dumps Sample.crossover_state
           Sample.crossover_result 1 Sample.crossover_data).
  vm_compute. reflexivity.
Defined.

End SampleFacts.

(** * Further properties of [run] *)

(** ** Which products get a result *)

Lemma mid_price_has_mid od m :
  mid_price od = Ok m -> has_mid od = match m with Some _ => true | None => false end.
Proof.
  unfold mid_price, has_mid.
  destruct (buy_orders od) as [|b bs]; destruct (sell_orders od) as [|a ss];
    simpl.
  - now intros [= <-].
  - now intros [= <-].
  - now intros [= <-].
  - intros H. apply bind_Ok in H as (f & _ & H). now injection H as <-.
Qed.

Lemma dict_set_absent {V : Type} (k : string) (v : V) d :
  ~ In k (map fst d) -> dict_set k v d = d ++ [(k, v)].
Proof.
  induction d as [|[k' v'] d IH]; simpl; intros Hk; [reflexivity|].
  destruct (String.eqb_spec k k') as [->|_]; [tauto|].
  rewrite IH by tauto. reflexivity.
Qed.

Lemma run_loop_result_keys ods : forall result ph result' ph',
  run_loop ods result ph = Ok (result', ph') ->
  NoDup (map fst result ++ map fst ods) ->
  map fst result' = map fst result ++ processed ods.
Proof.
  unfold processed.
  induction ods as [|[p od] ods IH]; simpl; intros result ph result' ph' H Hnd.
  - injection H as <- <-. now rewrite List.app_nil_r.
  - apply bind_Ok in H as ([r1 ph1] & H1 & H).
    apply process_product_Ok in H1
      as [(Hm & -> & ->)
         |(mid & d & old & orders & Hm & -> & _ & _ & -> & ->)];
      rewrite (mid_price_has_mid _ _ Hm).
    + apply IH in H; [assumption|].
      now apply NoDup_remove_1 in Hnd.
    + assert (Hp : ~ In p (map fst result)).
      { apply NoDup_remove_2 in Hnd. intros Hin. apply Hnd.
        apply in_or_app. now left. }
      rewrite dict_set_absent in H by assumption.
      apply IH in H.
      * rewrite H, map_app, <- List.app_assoc. reflexivity.
      * rewrite map_app, <- List.app_assoc. exact Hnd.
Qed.

(** ** What an order can be *)

Lemma signal_orders_shape product od h orders :
  signal_orders product od h = Ok orders ->
  no_order_or_one_buy product od orders.
Proof.
  unfold signal_orders, no_order_or_one_buy. intros H.
  destruct (_ >=? _); [|injection H as <-; now left].
  apply bind_Ok in H as (s & _ & H). apply bind_Ok in H as (l & _ & H).
  apply bind_Ok in H as (sp & _ & H). apply bind_Ok in H as (lp & _ & H).
  destruct (crossover sp lp s l); [|injection H as <-; now left].
  destruct (sell_orders od) as [|a ss] eqn:E; [injection H as <-; now left|].
  destruct (py_min_keys (a :: ss)) as (k & Hk & Hmin); [discriminate|].
  cbn [nonempty] in H. rewrite Hk in H. cbn [bind] in H.
  apply bind_Ok in H as ([] & _ & H).
  injection H as <-. right. exists k. split; [assumption|reflexivity].
Qed.

Lemma run_loop_orders_shape all ods : forall result ph result' ph',
  run_loop ods result ph = Ok (result', ph') ->
  incl ods all ->
  (forall product orders,
      dict_get product result = Some orders ->
      exists od, In (product, od) all /\
                 no_order_or_one_buy product od orders) ->
  forall product orders,
    dict_get product result' = Some orders ->
    exists od, In (product, od) all /\
               no_order_or_one_buy product od orders.
Proof.
  induction ods as [|[p od] ods IH]; simpl;
    intros result ph result' ph' H Hincl Hres.
  - now injection H as <- <-.
  - apply bind_Ok in H as ([r1 ph1] & H1 & H).
    apply (IH _ _ _ _ H); [intros x Hx; apply Hincl; now right|].
    apply process_product_Ok in H1
      as [(_ & -> & _)
         |(mid & d & old & orders & _ & _ & _ & Hs & -> & _)];
      [assumption|].
    intros q oq. destruct (String.eqb_spec q p) as [->|Hne].
    + rewrite dict_get_set_eq. intros [= <-]. exists od. split.
      * apply Hincl. now left.
      * exact (signal_orders_shape _ _ _ _ Hs).
    + rewrite dict_get_set_neq by assumption. apply Hres.
Qed.

(** ** Idle ticks *)

Lemma idle_mid_price od :
  buy_orders od = [] -> sell_orders od = [] -> mid_price od = Ok None.
Proof. intros Hb Hs. unfold mid_price. now rewrite Hb, Hs. Qed.

Lemma run_loop_idle ods result ph :
  idle ods -> run_loop ods result ph = Ok (result, ph).
Proof.
  induction ods as [|[p od] ods IH]; intros Hidle; simpl; [reflexivity|].
  destruct (Hidle p od (or_introl eq_refl)) as [Hb Hs].
  rewrite process_product_skip by now apply idle_mid_price.
  cbn [bind]. apply IH. intros q oq Hq. apply (Hidle q oq). now right.
Qed.

Lemma has_mid_false od :
  has_mid od = false -> buy_orders od = [] /\ sell_orders od = [].
Proof.
  unfold has_mid. destruct (buy_orders od), (sell_orders od);
    simpl; intros H; try discriminate; auto.
Qed.

(** A loop that returns from a history that is not a dictionary met only
    empty books. *)
Lemma run_loop_not_dict ods : forall result ph result' ph',
  run_loop ods result ph = Ok (result', ph') ->
  is_dict ph = false -> idle ods.
Proof.
  induction ods as [|[p od] ods IH]; simpl;
    intros result ph result' ph' H Hph q oq Hq; [contradiction|].
  apply bind_Ok in H as ([r1 ph1] & H1 & H).
  apply process_product_Ok in H1
    as [(Hm & -> & ->)|(mid & d & _ & _ & _ & -> & _)];
    [|discriminate Hph].
  destruct Hq as [[= <- <-]|Hq].
  - apply has_mid_false. now rewrite (mid_price_has_mid _ _ Hm).
  - exact (IH _ _ _ _ H Hph q oq Hq).
Qed.

(** ** Prices only *)

Lemma nonempty_keys (d : list (Z * Z)) : nonempty d = nonempty (keys d).
Proof. now destruct d. Qed.

Lemma same_prices_mid_price a b :
  same_prices a b -> mid_price a = mid_price b.
Proof.
  intros [Hb Hs]. unfold mid_price.
  now rewrite !nonempty_keys, Hb, Hs.
Qed.

Lemma same_prices_signal_orders product a b h :
  same_prices a b -> signal_orders product a h = signal_orders product b h.
Proof.
  intros [Hb Hs]. unfold signal_orders.
  now rewrite !nonempty_keys, Hs.
Qed.

Lemma same_books_run_loop ods1 ods2 :
  same_books ods1 ods2 ->
  forall result ph, run_loop ods1 result ph = run_loop ods2 result ph.
Proof.
  induction 1 as [|[p1 a] [p2 b] ods1 ods2 [Hp Hab] _ IH];
    intros result ph; simpl in *; [reflexivity|].
  subst p2. unfold process_product.
  rewrite (same_prices_mid_price _ _ Hab).
  destruct (mid_price b) as [[mid|]|e]; cbn [bind]; auto.
  destruct (update_history ph p1 mid) as [[ph1 h]|e]; cbn [bind]; auto.
  rewrite (same_prices_signal_orders p1 _ _ h Hab).
  destruct (signal_orders p1 b h) as [orders|e]; cbn [bind]; auto.
Qed.

(** ** The last seven values *)

Lemma lastn_lastn {A : Type} (n m : nat) (l : list A) :
  (n <= m)%nat -> lastn n (lastn m l) = lastn n l.
Proof.
  intros Hnm. unfold lastn. rewrite length_skipn, skipn_skipn.
  f_equal. lia.
Qed.

Lemma removelast_lastn {A : Type} (m : nat) (l : list A) :
  (S m <= List.length l)%nat ->
  removelast (lastn (S m) l) = lastn m (removelast l).
Proof.
  intros Hm. unfold lastn.
  rewrite !removelast_firstn_len, length_skipn, length_firstn.
  rewrite skipn_firstn_comm. f_equal; [lia|f_equal; lia].
Qed.

Lemma signal_orders_last_seven product od h :
  (7 <= List.length h)%nat ->
  signal_orders product od (lastn 7 h) = signal_orders product od h.
Proof.
  intros Hlen.
  rewrite (signal_orders_long product od h Hlen).
  rewrite signal_orders_long by (rewrite length_lastn; lia).
  rewrite removelast_lastn by assumption.
  rewrite !lastn_lastn by lia. reflexivity.
Qed.

(** ** One tick after a buy *)

Lemma SFcompare_Lt_Gt a b :
  SFcompare a b = Some Lt -> SFcompare b a = Some Gt.
Proof.
  destruct a as [sa|sa| |sa ma ea], b as [sb|sb| |sb mb eb];
    simpl; try discriminate;
    try (destruct sa; try destruct sb; simpl; congruence).
  assert (Hm : Pos.compare_cont Eq mb ma
               = CompOpp (Pos.compare_cont Eq ma mb))
    by (rewrite (Pos.compare_cont_antisym ma mb Eq); reflexivity).
  destruct sa, sb; try congruence; try discriminate;
    rewrite (Z.compare_antisym ea eb), Hm;
    destruct (ea ?= eb); simpl; try congruence;
    destruct (Pos.compare_cont Eq ma mb); simpl; congruence.
Qed.

Lemma ltb_not_leb a b : F64.ltb a b = true -> F64.leb b a = false.
Proof.
  unfold F64.ltb, F64.leb, SFltb, SFleb.
  destruct (SFcompare a b) as [[| |]|] eqn:E; try discriminate.
  intros _. now rewrite (SFcompare_Lt_Gt _ _ E).
Qed.

(** A history on which the signal fires is followed by one on which it
    does not, whatever the next value and the next book. *)
Lemma signal_orders_after_buy product od od' h mid order orders orders' :
  signal_orders product od h = Ok (order :: orders) ->
  signal_orders product od' (h ++ [mid]) = Ok orders' ->
  orders' = [].
Proof.
  intros Hfire Hnext.
  destruct (Nat.lt_ge_cases (List.length h) 7) as [Hlen|Hlen].
  { rewrite signal_orders_short in Hfire by assumption. discriminate. }
  rewrite signal_orders_long in Hfire by assumption.
  rewrite signal_orders_long in Hnext by (rewrite length_app; lia).
  rewrite removelast_last in Hnext.
  apply bind_Ok in Hfire as (s & Es & Hfire).
  apply bind_Ok in Hfire as (l & El & Hfire).
  apply bind_Ok in Hfire as (sp & _ & Hfire).
  apply bind_Ok in Hfire as (lp & _ & Hfire).
  assert (Hlt : F64.ltb l s = true).
  { unfold crossover in Hfire.
    destruct (F64.ltb l s); [reflexivity|].
    rewrite andb_false_r in Hfire. discriminate. }
  apply bind_Ok in Hnext as (s' & _ & Hnext).
  apply bind_Ok in Hnext as (l' & _ & Hnext).
  rewrite Es, El in Hnext. cbn [bind] in Hnext.
  unfold crossover in Hnext. rewrite (ltb_not_leb _ _ Hlt) in Hnext.
  cbn [andb] in Hnext. congruence.
Qed.

Lemma run_loop_key ods : forall result ph result' ph' product orders,
  run_loop ods result ph = Ok (result', ph') ->
  dict_get product result = None ->
  dict_get product result' = Some orders ->
  exists od mid,
    In (product, od) ods /\ mid_price od = Ok (Some mid).
Proof.
  induction ods as [|[p od] ods IH]; simpl;
    intros result ph result' ph' product orders H Hnone Hget.
  - injection H as <- <-. congruence.
  - apply bind_Ok in H as ([r1 ph1] & H1 & H).
    apply process_product_Ok in H1
      as [(Hm & -> & ->)
         |(mid & d & old & o & Hm & -> & _ & _ & -> & ->)].
    + destruct (IH _ _ _ _ _ _ H Hnone Hget) as (od' & mid' & Hin & Hm').
      eauto.
    + destruct (String.eqb_spec product p) as [->|Hne]; [eauto|].
      rewrite <- (dict_get_set_neq product p o result Hne) in Hnone.
      destruct (IH _ _ _ _ _ _ H Hnone Hget) as (od' & mid' & Hin & Hm').
      eauto.
Qed.

(** ** A first tick *)

Lemma run_loop_first ods : forall result d,
  NoDup (map fst result ++ map fst ods) ->
  NoDup (map fst d ++ map fst ods) ->
  forall result' ph',
    run_loop ods result (PDict d) = Ok (result', ph') ->
    result' = result ++ map (fun p => (p, [])) (processed ods) /\
    ph' = PDict (d ++ first_entries ods).
Proof.
  unfold processed, first_entries.
  induction ods as [|[p od] ods IH]; simpl;
    intros result d Hr Hd result' ph' H.
  - injection H as <- <-. now rewrite !List.app_nil_r.
  - apply bind_Ok in H as ([r1 ph1] & H1 & H).
    apply process_product_Ok in H1
      as [(Hm & -> & ->)
         |(mid & d0 & old & orders & Hm & [= <-] & Ho & Hs & -> & ->)];
      rewrite (mid_price_has_mid _ _ Hm), Hm.
    + apply IH in H; [assumption| |];
        eapply NoDup_remove_1; eassumption.
    + assert (Hpr : ~ In p (map fst result)).
      { apply NoDup_remove_2 in Hr. intros Hin. apply Hr.
        apply in_or_app. now left. }
      assert (Hpd : ~ In p (map fst d)).
      { apply NoDup_remove_2 in Hd. intros Hin. apply Hd.
        apply in_or_app. now left. }
      assert (old = []).
      { simpl in Ho. destruct (dict_get p d) as [v|] eqn:E; [|congruence].
        apply dict_get_In in E. apply (in_map fst) in E. contradiction. }
      subst old. rewrite signal_orders_short in Hs by (simpl; lia).
      injection Hs as <-.
      rewrite !dict_set_absent in H by assumption.
      apply IH in H.
      * destruct H as [-> ->]. simpl.
        now rewrite <- !List.app_assoc.
      * rewrite map_app, <- List.app_assoc. exact Hr.
      * rewrite map_app, <- List.app_assoc. exact Hd.
Qed.

Section Further.

Variable json_loads : string -> option pyval.
Variable json_dumps : pyval -> string.

(** X1.  The result of a returned run has one key for each product whose
    book has a price on some side, in the order of the snapshot, and no
    other key. *)
Theorem result_keys_are_processed state result conversions data :
  NoDup (map fst (order_depths state)) ->
  run json_loads json_dumps state = Ok (result, conversions, data) ->
  map fst result = processed (order_depths state).
Proof.
  intros Hnd Hrun. apply run_Ok in Hrun as (ph' & Hloop & _).
  now apply run_loop_result_keys in Hloop.
Qed.

(** X2.  Every key of the result of a returned run is a product of the
    snapshot, and its orders are none, or exactly one order that buys 10
    of that product at the smallest sell price of its book: never a sell,
    never two orders, never another quantity or price. *)
Theorem orders_are_single_buys state result conversions data product orders :
  run json_loads json_dumps state = Ok (result, conversions, data) ->
  dict_get product result = Some orders ->
  exists od,
    In (product, od) (order_depths state) /\
    no_order_or_one_buy product od orders.
Proof.
  intros Hrun Hget. apply run_Ok in Hrun as (ph' & Hloop & _).
  apply (run_loop_orders_shape (order_depths state) _ _ _ _ _ Hloop)
    with (product := product); try assumption.
  - apply incl_refl.
  - intros q oq Hq. discriminate Hq.
Qed.


(** X4.  When the persisted state parses to something that is not a
    mapping, the run returns exactly on the ticks where every book is
    empty: one price in one book makes lines 45-47 raise. *)
Theorem non_mapping_state_returns_iff_idle state :
  is_dict (load_history json_loads (traderData state)) = false ->
  (exists result data,
      run json_loads json_dumps state = Ok (result, 1, data)) <->
  idle (order_depths state).
Proof.
  intros Hph. split.
  - intros (result & data & Hrun).
    apply run_Ok in Hrun as (ph' & Hloop & _).
    exact (run_loop_not_dict _ _ _ _ _ Hloop Hph).
  - intros Hidle. unfold run. rewrite run_loop_idle by assumption.
    cbn [bind]. eauto.
Qed.

(** X5.  The run reads prices only: two snapshots with the same products
    and the same prices in every book, whatever the quantities, have the
    same outcome on the same persisted state. *)
Theorem quantities_are_ignored state1 state2 :
  traderData state1 = traderData state2 ->
  same_books (order_depths state1) (order_depths state2) ->
  run json_loads json_dumps state1 = run json_loads json_dumps state2.
Proof.
  intros Hdata Hbooks. unfold run.
  now rewrite Hdata, (same_books_run_loop _ _ Hbooks).
Qed.

(** X6.  The orders of a product are decided by its book and the last
    seven values of its history: in two returned runs where the product
    has the same book and histories of at least six values that agree on
    their last six, the product gets the same orders. *)
Theorem orders_depend_on_last_six
  state1 result1 conversions1 data1 state2 result2 conversions2 data2
  product od old1 old2 :
  NoDup (map fst (order_depths state1)) ->
  NoDup (map fst (order_depths state2)) ->
  run json_loads json_dumps state1 = Ok (result1, conversions1, data1) ->
  run json_loads json_dumps state2 = Ok (result2, conversions2, data2) ->
  In (product, od) (order_depths state1) ->
  In (product, od) (order_depths state2) ->
  history_of (load_history json_loads (traderData state1)) product
  = Some old1 ->
  history_of (load_history json_loads (traderData state2)) product
  = Some old2 ->
  (6 <= List.length old1)%nat ->
  (6 <= List.length old2)%nat ->
  lastn 6 old1 = lastn 6 old2 ->
  dict_get product result1 = dict_get product result2.
Proof.
  intros Hnd1 Hnd2 Hrun1 Hrun2 Hin1 Hin2 Ho1 Ho2 Hl1 Hl2 Hlast.
  apply run_Ok in Hrun1 as (ph1 & Hloop1 & _).
  apply run_Ok in Hrun2 as (ph2 & Hloop2 & _).
  destruct (run_loop_at _ _ _ _ _ _ _ Hloop1 Hnd1 Hin1)
    as [(Hm1 & Hr1 & _)|(mid1 & o1 & orders1 & Hm1 & Ho1' & Hs1 & Hr1 & _)];
    destruct (run_loop_at _ _ _ _ _ _ _ Hloop2 Hnd2 Hin2)
      as [(Hm2 & Hr2 & _)|(mid2 & o2 & orders2 & Hm2 & Ho2' & Hs2 & Hr2 & _)];
    try congruence.
  assert (mid2 = mid1) by congruence. assert (o1 = old1) by congruence.
  assert (o2 = old2) by congruence. subst mid2 o1 o2.
  rewrite Hr1, Hr2. f_equal.
  rewrite <- signal_orders_last_seven in Hs1 by (rewrite length_app; simpl; lia).
  rewrite <- signal_orders_last_seven in Hs2 by (rewrite length_app; simpl; lia).
  assert (E : lastn 7 (old1 ++ [mid1]) = lastn 7 (old2 ++ [mid1])).
  { assert (Hsplit : forall old : list pyval,
               (6 <= List.length old)%nat ->
               lastn 7 (old ++ [mid1]) = lastn 6 old ++ [mid1]).
    { intros old Hl. unfold lastn. rewrite length_app. simpl List.length.
      replace (List.length old + 1 - 7)%nat with (List.length old - 6)%nat
        by lia.
      rewrite skipn_app.
      replace (List.length old - 6 - List.length old)%nat with 0%nat by lia.
      reflexivity. }
    now rewrite !Hsplit, Hlast by assumption. }
  rewrite E in Hs1. congruence.
Qed.

(** X7.  A product never buys on two ticks in a row: when a returned run
    gives it an order and the next run starts from the history that run
    left for it, the next run, if it returns, gives it no order. *)
Theorem no_buy_on_the_next_tick
  state1 result1 conversions1 data1 state2 result2 conversions2 data2
  product od1 mid1 old order orders orders2 :
  NoDup (map fst (order_depths state1)) ->
  NoDup (map fst (order_depths state2)) ->
  run json_loads json_dumps state1 = Ok (result1, conversions1, data1) ->
  run json_loads json_dumps state2 = Ok (result2, conversions2, data2) ->
  In (product, od1) (order_depths state1) ->
  mid_price od1 = Ok (Some mid1) ->
  history_of (load_history json_loads (traderData state1)) product
  = Some old ->
  history_of (load_history json_loads (traderData state2)) product
  = Some (old ++ [mid1]) ->
  dict_get product result1 = Some (order :: orders) ->
  dict_get product result2 = Some orders2 ->
  orders2 = [].
Proof.
  intros Hnd1 Hnd2 Hrun1 Hrun2 Hin1 Hmid1 Hold1 Hold2 Hget1 Hget2.
  apply run_Ok in Hrun1 as (ph1 & Hloop1 & _).
  apply run_Ok in Hrun2 as (ph2 & Hloop2 & _).
  destruct (run_loop_at _ _ _ _ _ _ _ Hloop1 Hnd1 Hin1)
    as [(Hm & _)|(m1 & o1 & os1 & Hm1 & Ho1 & Hs1 & Hr1 & _)];
    [congruence|].
  assert (m1 = mid1) by congruence. assert (o1 = old) by congruence.
  subst m1 o1. rewrite Hr1 in Hget1. injection Hget1 as ->.
  destruct (run_loop_key _ _ _ _ _ _ _ Hloop2 eq_refl Hget2)
    as (od2 & mid2 & Hin2 & Hmid2).
  destruct (run_loop_at _ _ _ _ _ _ _ Hloop2 Hnd2 Hin2)
    as [(Hm & _)|(m2 & o2 & os2 & Hm2 & Ho2 & Hs2 & Hr2 & _)];
    [congruence|].
  assert (o2 = old ++ [mid1]) by congruence. subst o2.
  rewrite Hr2 in Hget2. injection Hget2 as ->.
  exact (signal_orders_after_buy _ _ _ _ _ _ _ _ Hs1 Hs2).
Qed.

(** X8.  A state of number sequences stays one: when every price is
    within the bound and the persisted state is absent, empty,
    unparseable or a mapping from products to sequences of numbers, the
    run returns the serialization of such a mapping again, so that ticks
    can follow one another. *)
Theorem numeric_state_is_kept state :
  prices_in_range (order_depths state) ->
  history_mapping (load_history json_loads (traderData state)) ->
  exists result ph',
    run json_loads json_dumps state = Ok (result, 1, json_dumps ph') /\
    history_mapping ph'.
Proof.
  intros Hp Hh. unfold run.
  destruct (run_loop_defined (order_depths state) [] _ Hp Hh)
    as (result & ph' & -> & Hh').
  cbn [bind]. eauto.
Qed.

(** X9.  A run without a usable persisted state (absent, empty or
    unparseable) that returns gives no order at all, and the state it
    writes holds, for each product with a price in its book, the one
    mid-price of this tick and nothing else: whatever the unparseable
    text held is gone. *)
Theorem first_tick state result conversions data :
  NoDup (map fst (order_depths state)) ->
  no_state json_loads (traderData state) ->
  run json_loads json_dumps state = Ok (result, conversions, data) ->
  result = map (fun p => (p, [])) (processed (order_depths state)) /\
  data = json_dumps (PDict (first_entries (order_depths state))).
Proof.
  intros Hnd Hbad Hrun. apply run_Ok in Hrun as (ph' & Hloop & _ & ->).
  assert (E : load_history json_loads (traderData state) = PDict []).
  { destruct Hbad as [->|[->|(s & -> & Hs)]]; try reflexivity.
    unfold load_history. rewrite Hs. now destruct s. }
  rewrite E in Hloop.
  apply run_loop_first in Hloop as [-> ->]; auto.
Qed.

End Further.

(** ** From one tick to the next *)

Lemma dict_set_keys {V : Type} (k : string) (v : V) d :
  map fst (dict_set k v d)
  = if dict_mem k d then map fst d else map fst d ++ [k].
Proof.
  unfold dict_mem. induction d as [|[k' v'] d IH]; simpl; [reflexivity|].
  destruct (String.eqb_spec k k') as [->|_]; simpl; [reflexivity|].
  rewrite IH. now destruct (dict_get k d).
Qed.

Lemma dict_set_distinct {V : Type} (k : string) (v : V) d :
  NoDup (map fst d) -> NoDup (map fst (dict_set k v d)).
Proof.
  intros Hnd. rewrite dict_set_keys. unfold dict_mem.
  destruct (dict_get k d) eqn:E; [assumption|].
  apply dict_get_None in E.
  apply NoDup_app; [assumption|repeat constructor; intros []|].
  intros x Hx [<-|[]]. contradiction.
Qed.

Section NextTick.

Variable float_repr : spec_float -> string.
Variable read_float : string -> spec_float.

Abbreviation loads := (Json.loads read_float).
Abbreviation dumps := (Json.dumps float_repr).
Abbreviation json_number := (Json.json_number float_repr read_float).
Abbreviation json_history := (Json.json_history float_repr read_float).
Abbreviation sequences := (Json.sequences float_repr read_float).

Lemma loads_dumps_history h : json_history h -> loads (dumps h) = Some h.
Proof.
  destruct h as [| | | | | |d]; try contradiction. intros [Hnd Hd].
  unfold Json.loads.
  change (Json.skip_ws (dumps (PDict d))) with (dumps (PDict d)).
  rewrite <- (JsonFacts.append_nil_r (dumps (PDict d))) at 2.
  rewrite JsonFacts.scan_value_history; try assumption; [reflexivity|].
  pose proof (JsonFacts.members_fuel_length float_repr read_float d Hd) as Hf.
  cbn [Json.dumps]. fold (Json.member_text float_repr).
  fold (map (Json.member_text float_repr) d).
  rewrite !JsonFacts.length_append. simpl String.length. lia.
Qed.

Lemma load_dumps_history h :
  json_history h -> load_history loads (Some (dumps h)) = h.
Proof.
  intros Hh. unfold load_history. rewrite (loads_dumps_history h Hh).
  destruct h; try contradiction. reflexivity.
Qed.

Lemma json_history_entry d product old :
  json_history (PDict d) -> history_of (PDict d) product = Some old ->
  Forall json_number old.
Proof.
  intros [_ Hd] Ho. simpl in Ho.
  destruct (dict_get product d) as [v|] eqn:E.
  - apply dict_get_In in E. unfold Json.sequences in Hd.
    rewrite Forall_forall in Hd. specialize (Hd _ E). simpl in Hd.
    destruct v; try discriminate. now injection Ho as <-.
  - injection Ho as <-. constructor.
Qed.

Lemma run_loop_json_history ods : forall result ph result' ph',
  run_loop ods result ph = Ok (result', ph') ->
  (forall product od mid,
      In (product, od) ods -> mid_price od = Ok (Some mid) ->
      json_number mid) ->
  json_history ph -> json_history ph'.
Proof.
  induction ods as [|[p od] ods IH]; simpl;
    intros result ph result' ph' H Hmid Hph.
  - now injection H as <- <-.
  - apply bind_Ok in H as ([r1 ph1] & H1 & H).
    apply (IH _ _ _ _ H); [intros q oq m Hq; apply (Hmid q oq m); now right|].
    apply process_product_Ok in H1
      as [(_ & _ & ->)|(mid & d & old & orders & Hm & -> & Ho & _ & _ & ->)];
      [assumption|].
    pose proof (json_history_entry _ _ _ Hph Ho) as Hold.
    destruct Hph as [Hnd Hd]. split.
    + now apply dict_set_distinct.
    + unfold Json.sequences in *. rewrite Forall_forall in Hd.
      apply Forall_forall. intros kv Hin.
      apply In_dict_set in Hin as [->|Hin]; [|now apply Hd].
      simpl. apply Forall_app. split; [assumption|].
      constructor; [|constructor]. apply (Hmid p od mid); [now left|assumption].
Qed.

(** X10.  What a tick writes, the next tick reads: when the incoming
    state is a history mapping and the mid-prices of this tick have a text
    that reads back, the returned state parses to a history mapping in
    which every product with a price in its book has its incoming history
    with this tick's mid-price appended. *)
Theorem returned_state_reads_back state result conversions data :
  NoDup (map fst (order_depths state)) ->
  json_history (load_history loads (traderData state)) ->
  (forall product od mid,
      In (product, od) (order_depths state) ->
      mid_price od = Ok (Some mid) -> json_number mid) ->
  run loads dumps state = Ok (result, conversions, data) ->
  json_history (load_history loads (Some data)) /\
  forall product od mid,
    In (product, od) (order_depths state) ->
    mid_price od = Ok (Some mid) ->
    exists old,
      history_of (load_history loads (traderData state)) product
      = Some old /\
      history_of (load_history loads (Some data)) product
      = Some (old ++ [mid]).
Proof.
  intros Hnd Hph Hmid Hrun. apply run_Ok in Hrun as (ph' & Hloop & _ & ->).
  pose proof (run_loop_json_history _ _ _ _ _ Hloop Hmid Hph) as Hph'.
  rewrite (load_dumps_history ph' Hph'). split; [assumption|].
  intros product od mid Hin Hm.
  destruct (run_loop_at _ _ _ _ _ _ _ Hloop Hnd Hin)
    as [(Hm' & _)|(mid' & old & orders & Hm' & Ho & _ & _ & He)];
    [congruence|].
  assert (mid' = mid) by congruence. subst mid'.
  exists old. split; [assumption|].
  destruct ph'; try contradiction. simpl in *. now rewrite He.
Qed.

End NextTick.

(** ** Histories that are not read, and histories that are *)

Lemma run_loop_short ods : forall result ph,
  NoDup (map fst ods) ->
  prices_in_range ods ->
  short_histories ph ods ->
  Forall (fun kv => snd kv = []) result ->
  exists result' ph',
    run_loop ods result ph = Ok (result', ph') /\
    Forall (fun kv => snd kv = []) result'.
Proof.
  induction ods as [|[p od] ods IH]; simpl; intros result ph Hnd Hmid Hs Hr.
  - eauto.
  - inversion Hnd as [|? ? Hp Hnd']; subst.
    inversion Hmid as [|? ? [Hb Ha] Hmid']; subst.
    destruct (mid_price_defined od Hb Ha) as ([mid|] & Hm & _).
    + destruct (Hs p od (or_introl eq_refl)) as (old & Ho & Hlen).
      destruct ph as [| | | | | |d]; try discriminate.
      unfold process_product. rewrite Hm. cbn [bind].
      rewrite (update_history_defined d p mid old Ho). cbn [bind].
      rewrite signal_orders_short by (rewrite length_app; simpl; lia).
      cbn [bind]. apply IH; try assumption.
      * intros q oq Hq. destruct (Hs q oq (or_intror Hq)) as (o & Hoq & Hl).
        exists o. split; [|assumption]. rewrite <- Hoq. simpl.
        rewrite dict_get_set_neq; [reflexivity|].
        intros ->. apply Hp. apply (in_map fst) in Hq. exact Hq.
      * apply Forall_forall. intros kv Hin.
        apply In_dict_set in Hin as [->|Hin]; [reflexivity|].
        rewrite Forall_forall in Hr. now apply Hr.
    + rewrite (process_product_skip p od result ph Hm). cbn [bind].
      apply IH; try assumption.
      intros q oq Hq. apply (Hs q oq). now right.
Qed.

Lemma py_sum_from_numbers l : forall acc r,
  py_sum_from acc l = Ok r -> Forall (fun v => is_number v = true) l.
Proof.
  induction l as [|x l IH]; simpl; intros acc r H; [constructor|].
  apply bind_Ok in H as (acc' & Ha & H). constructor; [|now apply (IH acc' r)].
  unfold py_add in Ha. apply bind_Ok in Ha as (na & _ & Ha).
  apply bind_Ok in Ha as (nx & Hx & _).
  destruct x; try discriminate; reflexivity.
Qed.

Lemma mean_numbers w f :
  mean w = Ok f -> Forall (fun v => is_number v = true) w.
Proof.
  unfold mean, py_sum. intros H. apply bind_Ok in H as (s & Hs & _).
  exact (py_sum_from_numbers _ _ _ Hs).
Qed.

(** ** The exceptions of a run *)

Lemma only_Ok {A : Type} allowed (a : A) : only allowed (Ok a).
Proof. intros e H. discriminate H. Qed.

Lemma only_Raise {A : Type} allowed e : In e allowed -> only (A := A) allowed (Raise e).
Proof. intros Hin e' H. injection H as <-. exact Hin. Qed.

Lemma only_bind {A B : Type} allowed (c : res A) (k : A -> res B) :
  only allowed c -> (forall a, c = Ok a -> only allowed (k a)) ->
  only allowed (bind c k).
Proof.
  intros Hc Hk. destruct c as [a|e]; simpl.
  - now apply Hk.
  - apply only_Raise. now apply Hc.
Qed.

Lemma only_incl {A : Type} l l' (c : res A) :
  incl l l' -> only l c -> only l' c.
Proof. intros Hi Hc e He. apply Hi. now apply Hc. Qed.

Lemma as_num_only v : only [TypeError] (as_num v).
Proof. destruct v; simpl; try apply only_Ok; apply only_Raise; now left. Qed.

Lemma float_of_int_only z : only [OverflowError] (float_of_int z).
Proof.
  unfold float_of_int. destruct (Z.abs z <? F64.overflow_threshold);
    [apply only_Ok|apply only_Raise; now left].
Qed.

Lemma to_float_only n : only [OverflowError] (to_float n).
Proof. destruct n; simpl; [apply float_of_int_only|apply only_Ok]. Qed.

Lemma incl_type : incl [TypeError] [TypeError; OverflowError].
Proof. intros e [<-|[]]. now left. Qed.

Lemma incl_overflow : incl [OverflowError] [TypeError; OverflowError].
Proof. intros e [<-|[]]. right. now left. Qed.

Lemma py_add_only a b : only [TypeError; OverflowError] (py_add a b).
Proof.
  unfold py_add.
  apply only_bind; [apply (only_incl _ _ _ incl_type), as_num_only|].
  intros x _.
  apply only_bind; [apply (only_incl _ _ _ incl_type), as_num_only|].
  intros y _.
  assert (Hf : only [TypeError; OverflowError]
                 (fx <- to_float x ;; fy <- to_float y ;;
                  Ok (PFloat (F64.add fx fy)))).
  { apply only_bind; [apply (only_incl _ _ _ incl_overflow), to_float_only|].
    intros fx _.
    apply only_bind; [apply (only_incl _ _ _ incl_overflow), to_float_only|].
    intros fy _. apply only_Ok. }
  destruct x, y; try exact Hf. apply only_Ok.
Qed.

Lemma py_sum_from_only l : forall acc,
  only [TypeError; OverflowError] (py_sum_from acc l).
Proof.
  induction l as [|x l IH]; simpl; intros acc; [apply only_Ok|].
  apply only_bind; [apply py_add_only|]. intros acc' _. apply IH.
Qed.

Lemma three_is_a_double :
  float_of_int 3 = Ok (F64.of_Z 3) /\ F64.is_zero (F64.of_Z 3) = false.
Proof. split; vm_compute; reflexivity. Qed.

Lemma six_is_a_double :
  float_of_int 6 = Ok (F64.of_Z 6) /\ F64.is_zero (F64.of_Z 6) = false.
Proof. split; vm_compute; reflexivity. Qed.

Lemma py_truediv_window_only s w :
  w = short_window \/ w = long_window ->
  only [TypeError; OverflowError] (py_truediv s (PInt w)).
Proof.
  intros Hw. unfold py_truediv.
  apply only_bind; [apply (only_incl _ _ _ incl_type), as_num_only|].
  intros x _. cbn [as_num bind]. destruct x as [m|f].
  - unfold int_truediv.
    assert (E : (w =? 0) = false) by (destruct Hw as [->| ->]; reflexivity).
    rewrite E.
    destruct (Z.abs m <? Z.abs w * F64.overflow_threshold);
      [apply only_Ok|apply only_Raise; right; now left].
  - cbn [to_float bind].
    destruct Hw as [->| ->]; unfold short_window, long_window.
    + destruct three_is_a_double as [-> E]. cbn [bind]. rewrite E.
      apply only_Ok.
    + destruct six_is_a_double as [-> E]. cbn [bind]. rewrite E.
      apply only_Ok.
Qed.

Lemma sma_only h start stop w :
  w = short_window \/ w = long_window ->
  only [TypeError; OverflowError] (sma h start stop w).
Proof.
  intros Hw. unfold sma, py_sum.
  apply only_bind; [apply py_sum_from_only|].
  intros s _. now apply py_truediv_window_only.
Qed.

Lemma py_min_nonempty (l : list (Z * Z)) :
  nonempty l = true -> exists k, py_min (keys l) = Ok k.
Proof. destruct l as [|[k q] l]; [discriminate|]. simpl. eauto. Qed.

Lemma py_max_nonempty (l : list (Z * Z)) :
  nonempty l = true -> exists k, py_max (keys l) = Ok k.
Proof. destruct l as [|[k q] l]; [discriminate|]. simpl. eauto. Qed.

Lemma signal_orders_only product od h :
  Forall small_int (keys (sell_orders od)) ->
  only [TypeError; OverflowError] (signal_orders product od h).
Proof.
  intros Ha. unfold signal_orders.
  destruct (Z.of_nat (List.length h) >=? long_window + 1); [|apply only_Ok].
  apply only_bind; [apply sma_only; now left|]. intros s _.
  apply only_bind; [apply sma_only; now right|]. intros l _.
  apply only_bind; [apply sma_only; now left|]. intros sp _.
  apply only_bind; [apply sma_only; now right|]. intros lp _.
  destruct (crossover sp lp s l); [|apply only_Ok].
  destruct (sell_orders od) as [|[a q] d]; [apply only_Ok|].
  cbn [nonempty keys map fst py_min bind].
  rewrite py_print_defined by (apply small_min; exact Ha).
  apply only_Ok.
Qed.

Lemma mid_price_only od : only [OverflowError] (mid_price od).
Proof.
  unfold mid_price.
  destruct (nonempty (buy_orders od)) eqn:Eb;
    destruct (nonempty (sell_orders od)) eqn:Es; cbn [andb].
  - destruct (py_max_nonempty _ Eb) as (b & ->).
    destruct (py_min_nonempty _ Es) as (a & ->). cbn [bind].
    change (py_add (PInt b) (PInt a)) with (Ok (PInt (b + a))). cbn [bind].
    apply only_bind; [|intros m _; apply only_Ok].
    unfold py_truediv. cbn [as_num bind to_float].
    apply only_bind; [apply float_of_int_only|]. intros f _.
    change (F64.is_zero F64.two) with false. apply only_Ok.
  - destruct (py_max_nonempty _ Eb) as (b & ->). apply only_Ok.
  - destruct (py_min_nonempty _ Es) as (a & ->). apply only_Ok.
  - apply only_Ok.
Qed.

Lemma update_history_only ph product mid :
  only [TypeError; AttributeError] (update_history ph product mid).
Proof.
  assert (Happend : forall d o,
            only [TypeError; AttributeError]
              (h <- py_append o mid ;;
               ph' <- py_setitem (PDict d) product (PList h) ;;
               Ok (ph', h))).
  { intros d o. destruct o; simpl; try apply only_Ok;
      apply only_Raise; right; now left. }
  unfold update_history.
  destruct ph as [| | | | |l|d]; simpl;
    try (apply only_Raise; now left).
  - destruct (index 0 product s); simpl; apply only_Raise; now left.
  - destruct (existsb _ l); simpl; apply only_Raise; now left.
  - unfold dict_mem. destruct (dict_get product d) as [v|] eqn:E; simpl.
    + rewrite E. cbn [bind]. apply Happend.
    + rewrite dict_get_set_eq. cbn [bind]. apply Happend.
Qed.

Lemma incl_mid :
  incl [OverflowError] [TypeError; AttributeError; OverflowError].
Proof. intros e [<-|[]]. simpl. auto. Qed.

Lemma incl_update :
  incl [TypeError; AttributeError] [TypeError; AttributeError; OverflowError].
Proof. intros e [<-|[<-|[]]]; simpl; auto. Qed.

Lemma incl_signal :
  incl [TypeError; OverflowError] [TypeError; AttributeError; OverflowError].
Proof. intros e [<-|[<-|[]]]; simpl; auto. Qed.

Lemma process_product_only product od result ph :
  Forall small_int (keys (sell_orders od)) ->
  only [TypeError; AttributeError; OverflowError]
    (process_product product od result ph).
Proof.
  intros Ha. unfold process_product.
  apply only_bind; [apply (only_incl _ _ _ incl_mid), mid_price_only|].
  intros [mid|] _; [|apply only_Ok].
  apply only_bind; [apply (only_incl _ _ _ incl_update), update_history_only|].
  intros [ph' h] _.
  apply only_bind;
    [apply (only_incl _ _ _ incl_signal), signal_orders_only, Ha|].
  intros orders _. apply only_Ok.
Qed.

Lemma run_loop_only ods : forall result ph,
  prices_in_range ods ->
  only [TypeError; AttributeError; OverflowError] (run_loop ods result ph).
Proof.
  induction ods as [|[p od] ods IH]; simpl; intros result ph Hr;
    [apply only_Ok|].
  inversion Hr as [|? ? [_ Ha] Hr']; subst.
  apply only_bind; [apply process_product_only, Ha|].
  intros [r ph'] _. now apply IH.
Qed.

Section Failures.

Variable json_loads : string -> option pyval.
Variable json_dumps : pyval -> string.

(** X11.  Histories shorter than six are not read: when every product of
    the snapshot has fewer than six recorded values, of whatever kind,
    and every price is within the bound, the run returns and every
    product with a price gets an empty list of orders. *)
Theorem short_histories_are_not_read state :
  NoDup (map fst (order_depths state)) ->
  prices_in_range (order_depths state) ->
  short_histories (load_history json_loads (traderData state))
    (order_depths state) ->
  exists result ph',
    run json_loads json_dumps state = Ok (result, 1, json_dumps ph') /\
    Forall (fun kv => snd kv = []) result.
Proof.
  intros Hnd Hmid Hs.
  destruct (run_loop_short (order_depths state) []
              (load_history json_loads (traderData state)) Hnd Hmid Hs
              (Forall_nil _)) as (result & ph' & Hl & Hr).
  exists result, ph'. unfold run. rewrite Hl. split; [reflexivity|assumption].
Qed.

(** X12.  A run that returns has read only numbers: for a product with a
    price in its book and at least six recorded values, the last six of
    them and this tick's mid-price are each a [bool], an [int] or a
    [float]. *)
Theorem windows_hold_numbers
  state result conversions data product od mid old :
  NoDup (map fst (order_depths state)) ->
  run json_loads json_dumps state = Ok (result, conversions, data) ->
  In (product, od) (order_depths state) ->
  mid_price od = Ok (Some mid) ->
  history_of (load_history json_loads (traderData state)) product
  = Some old ->
  (6 <= List.length old)%nat ->
  Forall (fun v => is_number v = true) (lastn 6 old ++ [mid]).
Proof.
  intros Hnd Hrun Hin Hm Ho Hlen.
  apply run_Ok in Hrun as (ph' & Hloop & _ & _).
  destruct (run_loop_at _ _ _ _ _ _ _ Hloop Hnd Hin)
    as [(Hm' & _)|(mid' & old' & orders & Hm' & Ho' & Hsig & _)];
    [congruence|].
  assert (mid' = mid) by congruence. assert (old' = old) by congruence.
  subst mid' old'.
  rewrite signal_orders_long in Hsig by (rewrite length_app; simpl; lia).
  apply bind_Ok in Hsig as (s & Hs & Hsig).
  apply bind_Ok in Hsig as (l & _ & Hsig).
  apply bind_Ok in Hsig as (sp & _ & Hsig).
  apply bind_Ok in Hsig as (lp & Hlp & _).
  rewrite removelast_last in Hlp.
  apply Forall_app. split; [exact (mean_numbers _ _ Hlp)|].
  apply mean_numbers in Hs. constructor; [|constructor].
  rewrite Forall_forall in Hs. apply Hs.
  unfold lastn. rewrite length_app. simpl List.length.
  rewrite skipn_app, in_app_iff. right.
  replace (List.length old + 1 - 3 - List.length old)%nat with 0%nat by lia.
  now left.
Qed.

(** X13.  With every price within the bound, a run raises nothing but
    [TypeError], [AttributeError] and [OverflowError]: it never fails
    with a missing key, on the maximum or minimum of an empty book, on a
    division by zero, or on the text of a price. *)
Theorem run_raises_only state e :
  prices_in_range (order_depths state) ->
  run json_loads json_dumps state = Raise e ->
  e = TypeError \/ e = AttributeError \/ e = OverflowError.
Proof.
  intros Hr H. unfold run in H.
  pose proof (run_loop_only (order_depths state) []
                (load_history json_loads (traderData state)) Hr) as Hl.
  destruct (run_loop _ _ _) as [[r ph']|e'] eqn:E; simpl in H;
    [discriminate|].
  injection H as ->. specialize (Hl e eq_refl). simpl in Hl.
  intuition congruence.
Qed.

End Failures.

(** ** The further properties on sample ticks *)

Module TickFacts.

Open Scope string_scope.

Example longer_run :
  run ref_loads ref_dumps Ticks.longer_state
  = Ok (Ticks.longer_result, 1, Ticks.longer_data).
Proof. vm_compute. reflexivity. Qed.

Example next_run :
  run ref_loads ref_dumps Ticks.next_state
  = Ok (Ticks.next_result, 1, Ticks.next_data).
Proof. vm_compute. reflexivity. Qed.

(** The crossover of the literal scenario at a best ask that line 71
    cannot format. *)
Example unprintable_run :
  mid_price Ticks.unprintable_book = Ok (Some (PFloat Sample.sixteen)) /\
  run ref_loads ref_dumps Ticks.unprintable_state = Raise ValueError.
Proof. split; vm_compute; reflexivity. Qed.

Example text_run :
  run ref_loads ref_dumps Ticks.text_state
  = Ok ([("KELP", [])], 1,
        ref_dumps (PDict [("KELP", PList [PStr "a"; PNone;
                                          PFloat Sample.sixteen])])).
Proof. vm_compute. reflexivity. Qed.

(** X1 on a first tick with a priced and an empty book. *)
Lemma result_keys_are_processed_witness :
  map fst [("KELP", @nil Order)] = processed (order_depths Sample.first_state).
Proof.
  apply (result_keys_are_processed ref_loads ref_dumps Sample.first_state
           [("KELP", [])] 1 Sample.first_data).
  - apply SampleFacts.distinct_kelp_resin.
  - vm_compute. reflexivity.
Defined.

(** X2 on the literal scenario. *)
Lemma orders_are_single_buys_witness :
  exists od,
    In ("KELP", od) (order_depths Sample.crossover_state) /\
    no_order_or_one_buy "KELP" od [buy_order "KELP" 17].
Proof.
  apply (orders_are_single_buys ref_loads ref_dumps Sample.crossover_state
           Sample.crossover_result 1 Sample.crossover_data).
  - vm_compute. reflexivity.
  - reflexivity.
Defined.


(** X4 on an array state and a book with prices. *)
Lemma non_mapping_state_returns_iff_idle_witness :
  (exists result data,
      run ref_loads ref_dumps Sample.array_state = Ok (result, 1, data)) <->
  idle (order_depths Sample.array_state).
Proof.
  apply (non_mapping_state_returns_iff_idle ref_loads ref_dumps
           Sample.array_state).
  vm_compute. reflexivity.
Defined.

(** X5 on the literal scenario and the same prices with other
    quantities. *)
Lemma quantities_are_ignored_witness :
  run ref_loads ref_dumps Sample.crossover_state
  = run ref_loads ref_dumps Ticks.thin_state.
Proof.
  apply (quantities_are_ignored ref_loads ref_dumps Sample.crossover_state
           Ticks.thin_state).
  - reflexivity.
  - constructor; [|constructor].
    split; [reflexivity|]. split; reflexivity.
Defined.

(** X6 on histories of six and of seven values. *)
Lemma orders_depend_on_last_six_witness :
  dict_get "KELP" Sample.crossover_result
  = dict_get "KELP" Ticks.longer_result.
Proof.
  apply (orders_depend_on_last_six ref_loads ref_dumps
           Sample.crossover_state Sample.crossover_result 1
           Sample.crossover_data
           Ticks.longer_state Ticks.longer_result 1 Ticks.longer_data
           "KELP" Sample.kelp_book Sample.six_tens
           (PInt 5 :: Sample.six_tens)).
  - apply SampleFacts.distinct_one.
  - apply SampleFacts.distinct_one.
  - vm_compute. reflexivity.
  - vm_compute. reflexivity.
  - left. reflexivity.
  - left. reflexivity.
  - vm_compute. reflexivity.
  - vm_compute. reflexivity.
  - simpl. lia.
  - simpl. lia.
  - reflexivity.
Defined.

(** X7 on the literal scenario and the tick after it. *)
Lemma no_buy_on_the_next_tick_witness :
  exists orders2,
    dict_get "KELP" Ticks.next_result = Some orders2 /\ orders2 = [].
Proof.
  exists []. split; [reflexivity|].
  apply (no_buy_on_the_next_tick ref_loads ref_dumps
           Sample.crossover_state Sample.crossover_result 1
           Sample.crossover_data
           Ticks.next_state Ticks.next_result 1 Ticks.next_data
           "KELP" Sample.kelp_book (PFloat Sample.sixteen) Sample.six_tens
           (buy_order "KELP" 17) [] []).
  - apply SampleFacts.distinct_one.
  - apply SampleFacts.distinct_one.
  - vm_compute. reflexivity.
  - vm_compute. reflexivity.
  - left. reflexivity.
  - vm_compute. reflexivity.
  - vm_compute. reflexivity.
  - vm_compute. reflexivity.
  - reflexivity.
  - reflexivity.
Defined.

(** X8 on the literal scenario. *)
Lemma numeric_state_is_kept_witness :
  exists result ph',
    run ref_loads ref_dumps Sample.crossover_state
    = Ok (result, 1, ref_dumps ph') /\
    history_mapping ph'.
Proof.
  apply (numeric_state_is_kept ref_loads ref_dumps Sample.crossover_state).
  - repeat constructor; apply SampleFacts.small_sample; reflexivity.
  - change (load_history ref_loads (traderData Sample.crossover_state))
      with (load_history ref_loads (Some (ref_dumps Sample.flat_history))).
    replace (load_history ref_loads (Some (ref_dumps Sample.flat_history)))
      with Sample.flat_history by (vm_compute; reflexivity).
    repeat constructor; apply SampleFacts.small_sample; reflexivity.
Defined.

(** X9 on a state that is not JSON. *)
Lemma first_tick_witness :
  [("KELP", @nil Order)]
  = map (fun p => (p, [])) (processed (order_depths Sample.malformed_state)) /\
  Sample.first_data
  = ref_dumps (PDict (first_entries (order_depths Sample.malformed_state))).
Proof.
  apply (first_tick ref_loads ref_dumps Sample.malformed_state
           [("KELP", [])] 1 Sample.first_data).
  - apply SampleFacts.distinct_kelp_resin.
  - right. right. exists "{". split; [reflexivity|].
    vm_compute. reflexivity.
  - vm_compute. reflexivity.
Defined.

(** X10 on the literal scenario: the returned text, read again. *)
Lemma returned_state_reads_back_witness :
  history_of (load_history ref_loads (Some Sample.crossover_data)) "KELP"
  = Some (Sample.six_tens ++ [PFloat Sample.sixteen])%list.
Proof.
  destruct (returned_state_reads_back FloatText.exact_repr
              FloatText.round_read Sample.crossover_state
              Sample.crossover_result 1 Sample.crossover_data)
    as [_ H].
  - apply SampleFacts.distinct_one.
  - change (load_history (Json.loads FloatText.round_read)
              (traderData Sample.crossover_state))
      with (load_history ref_loads (Some (ref_dumps Sample.flat_history))).
    replace (load_history ref_loads (Some (ref_dumps Sample.flat_history)))
      with Sample.flat_history by (vm_compute; reflexivity).
    split; [apply SampleFacts.distinct_one|].
    repeat constructor.
  - intros product od mid [E|[]] Hm. injection E as _ <-.
    vm_compute in Hm. injection Hm as <-. vm_compute. reflexivity.
  - vm_compute. reflexivity.
  - destruct (H "KELP" Sample.kelp_book (PFloat Sample.sixteen))
      as (old & Ho & Hn).
    + left. reflexivity.
    + vm_compute. reflexivity.
    + vm_compute in Ho. injection Ho as <-. exact Hn.
Defined.

(** X11 on a history of a string and a [None]. *)
Lemma short_histories_are_not_read_witness :
  exists result ph',
    run ref_loads ref_dumps Ticks.text_state
    = Ok (result, 1, ref_dumps ph') /\
    Forall (fun kv => snd kv = []) result.
Proof.
  apply (short_histories_are_not_read ref_loads ref_dumps Ticks.text_state).
  - apply SampleFacts.distinct_kelp_resin.
  - repeat constructor; apply SampleFacts.small_sample; reflexivity.
  - change (load_history ref_loads (traderData Ticks.text_state))
      with (load_history ref_loads (Some (ref_dumps Ticks.text_history))).
    replace (load_history ref_loads (Some (ref_dumps Ticks.text_history)))
      with Ticks.text_history by (vm_compute; reflexivity).
    intros product od [E|[E|[]]]; injection E as <- _.
    + exists [PStr "a"; PNone]. split; [reflexivity|simpl; lia].
    + exists []. split; [reflexivity|simpl; lia].
Defined.

(** X12 on the literal scenario. *)
Lemma windows_hold_numbers_witness :
  Forall (fun v => is_number v = true)
    (lastn 6 Sample.six_tens ++ [PFloat Sample.sixteen])%list.
Proof.
  apply (windows_hold_numbers ref_loads ref_dumps Sample.crossover_state
           Sample.crossover_result 1 Sample.crossover_data "KELP"
           Sample.kelp_book).
  - apply SampleFacts.distinct_one.
  - vm_compute. reflexivity.
  - left. reflexivity.
  - vm_compute. reflexivity.
  - vm_compute. reflexivity.
  - simpl. lia.
Defined.

(** X13 on an array state. *)
Lemma run_raises_only_witness :
  TypeError = TypeError \/ TypeError = AttributeError \/
  TypeError = OverflowError.
Proof.
  apply (run_raises_only ref_loads ref_dumps Sample.array_state).
  - repeat constructor; apply SampleFacts.small_sample; reflexivity.
  - vm_compute. reflexivity.
Defined.

End TickFacts.
